(** * Weather Predictor: the classification helpers and the request
      controller of [index.tsx], embedded in Rocq.

    JavaScript strings are represented by [string]s holding their UTF-8
    bytes.  Every literal the program searches for is ASCII, and an ASCII
    byte never occurs inside the encoding of another character, so substring
    search on the bytes agrees with [String.prototype.includes] on the
    UTF-16 code units.

    The host environment of the program (the case mappings of the Unicode
    tables, [JSON.parse], the text of the engine's [TypeError]) is not code
    of this repository: it is the interface [Host], and what the proofs
    need to know about it is stated as explicit laws. *)

From Stdlib Require Import String Ascii List Bool ZArith Lia.
From Stdlib Require Import SpecFloat.
Import ListNotations.

Set Warnings "-register-all".

Local Open Scope string_scope.
Local Open Scope Z_scope.

(** ** Host-language primitives *)

Module JS.

(** [s.includes(needle)]: [needle] occurs in [s] at some position. *)
Fixpoint includes (s needle : string) : bool :=
  String.prefix needle s
  || match s with
     | EmptyString => false
     | String _ rest => includes rest needle
     end.

(** [needle] occurs in [s]: the relation [includes] decides. *)
Definition Substring (needle s : string) : Prop :=
  exists pre post, s = pre ++ needle ++ post.

Definition byte (a : ascii) : N := N_of_ascii a.

Definition is_ascii_char (a : ascii) : bool := (byte a <? 128)%N.

Fixpoint is_ascii (s : string) : bool :=
  match s with
  | EmptyString => true
  | String a rest => is_ascii_char a && is_ascii rest
  end.

(** Case mapping of one ASCII character; every other byte is kept. *)
Definition ascii_lower_char (a : ascii) : ascii :=
  let n := byte a in
  if ((65 <=? n) && (n <=? 90))%N then ascii_of_N (n + 32) else a.

Definition ascii_upper_char (a : ascii) : ascii :=
  let n := byte a in
  if ((97 <=? n) && (n <=? 122))%N then ascii_of_N (n - 32) else a.

Fixpoint map_chars (f : ascii -> ascii) (s : string) : string :=
  match s with
  | EmptyString => EmptyString
  | String a rest => String (f a) (map_chars f rest)
  end.

Definition ascii_lower : string -> string := map_chars ascii_lower_char.
Definition ascii_upper : string -> string := map_chars ascii_upper_char.

(** What the embedding relies on about [toLowerCase] and [toUpperCase]:
    on a string of ASCII characters the result is the ASCII case mapping,
    and a run of ASCII characters inside any string is mapped in place,
    whatever surrounds it.  Characters outside ASCII may map to anything
    (the upper case of U+00DF is the two letters SS). *)
Record case_map_conforms (f : string -> string) (g : ascii -> ascii) : Prop :=
  { on_ascii : forall s, is_ascii s = true -> f s = map_chars g s;
    keeps_ascii_runs :
      forall u s, is_ascii u = true ->
                  Substring u s -> Substring (map_chars g u) (f s) }.

(** *** [parseInt(s, 10)] *)

(** White space and line terminators of one byte: TAB, LF, VT, FF, CR, SP. *)
Definition is_space1 (a : ascii) : bool :=
  let n := byte a in
  ((9 <=? n) && (n <=? 13) || (n =? 32))%N.

(** U+00A0, encoded C2 A0. *)
Definition is_space2 (a b : ascii) : bool :=
  ((byte a =? 194) && (byte b =? 160))%N.

(** The white space of three bytes: U+1680 (E1 9A 80), U+2000..U+200A
    (E2 80 80..8A), U+2028, U+2029, U+202F (E2 80 A8, A9, AF), U+205F
    (E2 81 9F), U+3000 (E3 80 80) and U+FEFF (EF BB BF). *)
Definition is_space3 (a b c : ascii) : bool :=
  let x := byte a in
  let y := byte b in
  let z := byte c in
  ((x =? 225) && (y =? 154) && (z =? 128)
   || (x =? 226) && (y =? 128)
      && ((128 <=? z) && (z <=? 138) || (z =? 168) || (z =? 169) || (z =? 175))
   || (x =? 226) && (y =? 129) && (z =? 159)
   || (x =? 227) && (y =? 128) && (z =? 128)
   || (x =? 239) && (y =? 187) && (z =? 191))%N.

(** Leading white space is skipped. *)
Fixpoint trimStart (s : string) : string :=
  match s with
  | EmptyString => s
  | String a s1 =>
      if is_space1 a then trimStart s1
      else
        match s1 with
        | EmptyString => s
        | String b s2 =>
            if is_space2 a b then trimStart s2
            else
              match s2 with
              | EmptyString => s
              | String c s3 => if is_space3 a b c then trimStart s3 else s
              end
        end
  end.

Definition digit_value (a : ascii) : option Z :=
  let n := byte a in
  if ((48 <=? n) && (n <=? 57))%N then Some (Z.of_N n - 48) else None.

(** The longest prefix of decimal digits, most significant first. *)
Fixpoint leading_digits (s : string) : list Z :=
  match s with
  | EmptyString => []
  | String a rest =>
      match digit_value a with
      | Some d => d :: leading_digits rest
      | None => []
      end
  end.

Definition digits_value (ds : list Z) : Z :=
  fold_left (fun acc d => 10 * acc + d) ds 0.

(** [parseInt(s, 10)]; [None] is NaN.  The result is the mathematical
    integer: the program only compares it with constants below 2^53, and
    rounding to a double is monotone and exact on those, so each comparison
    has the same outcome on the integer as on the double. *)
Definition parseInt (s : string) : option Z :=
  let t := trimStart s in
  let '(sign, body) :=
    match t with
    | String "-" r => (-1, r)
    | String "+" r => (1, r)
    | _ => (1, t)
    end in
  match leading_digits body with
  | [] => None
  | ds => Some (sign * digits_value ds)
  end.

End JS.

(** ** Values *)

(** A JavaScript value as the program meets it: what [JSON.parse] returns
    (never [Undefined]), what a property read yields, and what the state
    hooks hold.  An object keeps its properties in insertion order, each
    name once. *)
Inductive value : Type :=
| Undefined
| Null
| Bool (b : bool)
| Num (n : spec_float)
| Str (s : string)
| Arr (items : list value)
| Obj (props : list (string * value)).

(** What is thrown: an [Error] object with its [message], or anything else. *)
Inductive thrown : Type :=
| ErrorObject (message : string)
| NotAnError.

(** The conversion to boolean applied by [if], [!] and [&&]. *)
Definition truthy (v : value) : bool :=
  match v with
  | Undefined | Null => false
  | Bool b => b
  | Num (S754_zero _) | Num S754_nan => false
  | Num _ => true
  | Str s => negb (s =? "")%string
  | Arr _ | Obj _ => true
  end.

Fixpoint lookup (k : string) (props : list (string * value)) : value :=
  match props with
  | [] => Undefined
  | (k', v) :: rest => if (k' =? k)%string then v else lookup k rest
  end.

(** The host environment. *)
Class Host : Type :=
  { toLowerCase : string -> string;
    toUpperCase : string -> string;
    (** [JSON.parse]; [None] when it throws a [SyntaxError]. *)
    JSON_parse : string -> option value;
    (** The message of the [TypeError] raised by reading property [k] of
        [undefined] or [null]. *)
    nullish_read_message : value -> string -> string }.

(** ** Classification helpers *)

Section Helpers.

Context {host : Host}.

Definition getWeatherIcon (condition : string) : string :=
  let lowerCaseCondition := toLowerCase condition in
  if JS.includes lowerCaseCondition "sun" || JS.includes lowerCaseCondition "clear"
  then "☀️"
  else if JS.includes lowerCaseCondition "cloud" && JS.includes lowerCaseCondition "partly"
  then "⛅️"
  else if JS.includes lowerCaseCondition "cloud"
  then "☁️"
  else if JS.includes lowerCaseCondition "rain" || JS.includes lowerCaseCondition "drizzle"
  then "🌧️"
  else if JS.includes lowerCaseCondition "thunder" || JS.includes lowerCaseCondition "storm"
  then "⛈️"
  else if JS.includes lowerCaseCondition "snow"
  then "❄️"
  else if JS.includes lowerCaseCondition "mist" || JS.includes lowerCaseCondition "fog"
  then "🌫️"
  else "🌡️".

Definition getBeaufortDescription (speedStr : string) : string :=
  match JS.parseInt speedStr with
  | None => speedStr
  | Some speed =>
      if speed <=? 1 then "Calm"
      else if speed <=? 3 then "Light air"
      else if speed <=? 7 then "Light breeze"
      else if speed <=? 12 then "Gentle breeze"
      else if speed <=? 18 then "Moderate breeze"
      else if speed <=? 24 then "Fresh breeze"
      else if speed <=? 31 then "Strong breeze"
      else if speed <=? 38 then "High wind"
      else if speed <=? 46 then "Gale"
      else if speed <=? 54 then "Strong gale"
      else "Storm"
  end.

Definition getWindDirectionIcon (direction : string) : string :=
  let d := toUpperCase direction in
  if JS.includes d "N" then
    if JS.includes d "E" then "↗"
    else if JS.includes d "W" then "↖"
    else "↑"
  else if JS.includes d "S" then
    if JS.includes d "E" then "↘"
    else if JS.includes d "W" then "↙"
    else "↓"
  else if JS.includes d "E" then "→"
  else if JS.includes d "W" then "←"
  else "↔️".

End Helpers.

(** ** The request controller: component [App] *)

(** The five state hooks of [App]. [Null] is JavaScript's [null]. *)
Record state : Type :=
  mkState
    { city : string;
      selectedDate : string;
      weather : value;
      loading : bool;
      error : value }.

(** The first render; [today] is [new Date().toISOString().split('T')[0]]. *)
Definition initial (today : string) : state :=
  {| city := ""; selectedDate := today; weather := Null;
     loading := false; error := Null |}.

(** The request handed to [ai.models.generateContent] (the response schema,
    a constant, is left out). *)
Record request : Type :=
  mkRequest { model : string; contents : string }.

(** What the [try] block meets.  The call is made and rejects; or it is
    made and resolves to a response whose [text] is given (a response
    without text reads as the word undefined, which is not JSON); or
    line 158 throws, reading [process.env] or constructing the client,
    and no call is made at all. *)
Inductive outcome : Type :=
| Rejects (err : thrown)
| Resolves (text : string)
| NoClient (err : thrown).

(** What the handler does to the outside, in program order. *)
Inductive action : Type :=
| PreventDefault
| SetLoading (b : bool)
| SetWeather (w : value)
| SetError (e : value)
| GenerateContent (r : request)
| ConsoleError (items : list string).

Definition apply_action (st : state) (a : action) : state :=
  match a with
  | SetLoading b =>
      {| city := city st; selectedDate := selectedDate st;
         weather := weather st; loading := b; error := error st |}
  | SetWeather w =>
      {| city := city st; selectedDate := selectedDate st;
         weather := w; loading := loading st; error := error st |}
  | SetError e =>
      {| city := city st; selectedDate := selectedDate st;
         weather := weather st; loading := loading st; error := e |}
  | PreventDefault | GenerateContent _ | ConsoleError _ => st
  end.

Definition run (st : state) (acts : list action) : state :=
  fold_left apply_action acts st.

(** The [onChange] handlers of the two inputs. *)
Definition setCity (st : state) (v : string) : state :=
  {| city := v; selectedDate := selectedDate st;
     weather := weather st; loading := loading st; error := error st |}.

Definition setSelectedDate (st : state) (v : string) : state :=
  {| city := city st; selectedDate := v;
     weather := weather st; loading := loading st; error := error st |}.

(** *** Computations that log actions and may throw *)

Definition comp (A : Type) : Type := (list action * (A + thrown))%type.

Definition ret {A : Type} (a : A) : comp A := ([], inl a).

Definition throw {A : Type} (e : thrown) : comp A := ([], inr e).

Definition emit (a : action) : comp unit := ([a], inl tt).

Definition bind {A B : Type} (m : comp A) (k : A -> comp B) : comp B :=
  match m with
  | (log, inl a) => let '(log', r) := k a in ((log ++ log')%list, r)
  | (log, inr e) => (log, inr e)
  end.

Notation "x <- m ;; k" := (bind m (fun x => k))
  (at level 61, m at next level, right associativity).
Notation "m ;;; k" := (bind m (fun _ => k))
  (at level 61, right associativity).

(** [try body catch (err) handler finally final]. *)
Definition try_catch_finally
    (body : comp unit) (handler : thrown -> list action)
    (final : list action) : list action :=
  match body with
  | (log, inl _) => (log ++ final)%list
  | (log, inr e) => (log ++ handler e ++ final)%list
  end.

Definition dquote : string := String "034"%char EmptyString.

Definition model_name : string := "gemini-2.5-flash".

Definition prompt (cityName date : string) : string :=
  "Provide a weather forecast for " ++ cityName ++ " on " ++ date
  ++ ". Include the main conditions for that day (average temperature, dominant condition, wind, etc.), an hourly forecast for that day, and a daily forecast starting from "
  ++ date
  ++ " for a total of four days. Include temperature units, wind speed in mph, wind direction, precipitation probability, and precipitation type for all relevant sections. If the city is invalid or not found, respond with a JSON object containing only an "
  ++ dquote ++ "error" ++ dquote ++ " field with a message like "
  ++ dquote ++ "City not found." ++ dquote.

Definition enter_city_message : string := "Please enter a city name.".
Definition select_date_message : string := "Please select a date.".
Definition invalid_response_message : string :=
  "The weather service returned an invalid response. Please try again.".
Definition unexpected_error_message : string :=
  "An unexpected API error occurred. Please try again later.".
Definition not_found_message (cityName : string) : string :=
  "Could not find weather data for " ++ dquote ++ cityName ++ dquote
  ++ ". Please check the spelling.".

Section Controller.

Context {host : Host}.

(** [v.k] for a name [k] that no prototype defines, as [error] and [city]:
    an object yields its own property, [undefined] and [null] throw, and
    every other value yields [undefined]. *)
Definition get (v : value) (k : string) : comp value :=
  match v with
  | Undefined | Null => throw (ErrorObject (nullish_read_message v k))
  | Obj props => ret (lookup k props)
  | Bool _ | Num _ | Str _ | Arr _ => ret Undefined
  end.

(** Reading [k] of [payload] yields [v] (and does not throw). *)
Definition reads (payload : value) (k : string) (v : value) : Prop :=
  get payload k = ret v.

(** Lines 215-220: the inner [try] around [JSON.parse]. *)
Definition parse_response (text : string) : comp value :=
  match JSON_parse text with
  | Some weatherData => ret weatherData
  | None =>
      emit (ConsoleError ["JSON Parsing Error:"; "Response text:"; text]) ;;;
      throw (ErrorObject invalid_response_message)
  end.

(** Lines 158-228, from the moment the awaited call settles, or from the
    throw of line 158; [cityName] is the [city] that the handler closed
    over. *)
Definition try_body (cityName : string) (o : outcome) : comp unit :=
  match o with
  | Rejects err | NoClient err => throw err
  | Resolves text =>
      weatherData <- parse_response text ;;
      err <- get weatherData "error" ;;
      if truthy err then emit (SetError err)
      else
        c <- get weatherData "city" ;;
        if negb (truthy c) then emit (SetError (Str (not_found_message cityName)))
        else emit (SetWeather weatherData)
  end.

(** Lines 229-235. *)
Definition catch_handler (err : thrown) : list action :=
  ConsoleError
    [match err with ErrorObject m => m | NotAnError => "" end]
  :: match err with
     | ErrorObject m => [SetError (Str m)]
     | NotAnError => [SetError (Str unexpected_error_message)]
     end.

(** The handler after the [await], or from the throw of line 158. *)
Definition getWeather_resume (cityName : string) (o : outcome) : list action :=
  try_catch_finally (try_body cityName o) catch_handler [SetLoading false].

(** Lines 144-151: the message of the failed precondition, if any. *)
Definition validation (st : state) : option string :=
  if (city st =? "")%string then Some enter_city_message
  else if (selectedDate st =? "")%string then Some select_date_message
  else None.

(** Lines 143-155: the preconditions, then the three setters. *)
Definition getWeather_enter (st : state) : list action :=
  PreventDefault
  :: match validation st with
     | Some msg => [SetError (Str msg)]
     | None => [SetLoading true; SetWeather Null; SetError Null]
     end.

(** Lines 158-159: the call, made once the client is constructed; none
    when line 158 throws. *)
Definition getWeather_call (st : state) (o : outcome) : list action :=
  match o with
  | NoClient _ => []
  | Rejects _ | Resolves _ =>
      [GenerateContent
         {| model := model_name;
            contents := prompt (city st) (selectedDate st) |}]
  end.

(** The handler up to the [await], or up to the throw of line 158. *)
Definition getWeather_begin (st : state) (o : outcome) : list action :=
  (getWeather_enter st
   ++ match validation st with
      | Some _ => []
      | None => getWeather_call st o
      end)%list.

(** One whole run of the handler, [o] being what its [try] block meets. *)
Definition getWeather (st : state) (o : outcome) : list action :=
  (getWeather_begin st o
   ++ match validation st with
      | Some _ => []
      | None => getWeather_resume (city st) o
      end)%list.

(** The state shown while the call is pending, and after the handler. *)
Definition in_flight (st : state) : state := run st (getWeather_enter st).

Definition settled (st : state) (o : outcome) : state :=
  run st (getWeather st o).

End Controller.

(** *** What [App] renders from a state (lines 268-271) *)

(** [{loading && <WeatherSkeleton />}] *)
Definition shows_skeleton (st : state) : bool := loading st.

(** [{error && <p className="error">{error}</p>}]: the child of the
    paragraph when it is rendered. *)
Definition error_paragraph (st : state) : option value :=
  if truthy (error st) then Some (error st) else None.

(** [{!loading && weather && (...)}]: the record the result block is
    rendered from, when it is rendered. *)
Definition weather_results (st : state) : option value :=
  if negb (loading st) && truthy (weather st) then Some (weather st) else None.

(** [k] is an own property of the object. *)
Definition has_own (k : string) (props : list (string * value)) : bool :=
  existsb (fun p => (fst p =? k)%string) props.

Definition is_call (a : action) : bool :=
  match a with GenerateContent _ => true | _ => false end.

(** The external calls among a list of actions. *)
Definition calls (acts : list action) : list action := filter is_call acts.

(** ** A reference host

    An instance of [Host] to run the program on: the ASCII case mappings
    and a reader for a fragment of JSON (objects, arrays, strings with the
    single-character escapes, [true], [false], [null], and integers written
    without fraction or exponent).  Text outside the fragment is refused. *)

Module Reference.

Definition is_json_space (a : ascii) : bool :=
  let n := JS.byte a in
  ((n =? 32) || (n =? 9) || (n =? 10) || (n =? 13))%N.

Fixpoint skip_ws (s : string) : string :=
  match s with
  | String a rest => if is_json_space a then skip_ws rest else s
  | EmptyString => s
  end.

Definition unescape (a : ascii) : option ascii :=
  match a with
  | "034"%char => Some "034"%char
  | "\"%char => Some "\"%char
  | "/"%char => Some "/"%char
  | "b"%char => Some "008"%char
  | "f"%char => Some "012"%char
  | "n"%char => Some "010"%char
  | "r"%char => Some "013"%char
  | "t"%char => Some "009"%char
  | _ => None
  end.

Definition cons_char (a : ascii) (r : option (string * string))
  : option (string * string) :=
  match r with
  | Some (body, rest) => Some (String a body, rest)
  | None => None
  end.

(** The characters of a string literal after its opening quote, and the
    text after its closing quote. *)
Fixpoint string_body (s : string) : option (string * string) :=
  match s with
  | EmptyString => None
  | String a rest =>
      if (a =? "034")%char then Some (EmptyString, rest)
      else if (a =? "\")%char then
        match rest with
        | String e rest' =>
            match unescape e with
            | Some c => cons_char c (string_body rest')
            | None => None
            end
        | EmptyString => None
        end
      else if (JS.byte a <? 32)%N then None
      else cons_char a (string_body rest)
  end.

(** An integer literal (an optional minus sign, then a single zero or a
    run of digits that does not start with zero), not followed by a
    fraction or an exponent. *)
Definition integer_literal (s : string) : option (Z * string) :=
  let '(neg, body) :=
    match s with
    | String "-" r => (true, r)
    | _ => (false, s)
    end in
  let ds := JS.leading_digits body in
  let rest := String.substring (length ds) (String.length body) body in
  match ds with
  | [] => None
  | d :: more =>
      if (d =? 0) && negb (Nat.eqb (length more) 0) then None
      else
        match rest with
        | String "." _ | String "e" _ | String "E" _ => None
        | _ =>
            let n := JS.digits_value ds in
            Some (if neg then - n else n, rest)
        end
  end.

Definition number_of_Z (neg : bool) (n : Z) : spec_float :=
  match n with
  | Z0 => S754_zero neg
  | Zpos m => binary_normalize 53 1024 (Zpos m) 0 false
  | Zneg m => binary_normalize 53 1024 (Zneg m) 0 true
  end.

Fixpoint update (k : string) (v : value) (props : list (string * value))
  : list (string * value) :=
  match props with
  | [] => [(k, v)]
  | (k', v') :: rest =>
      if (k' =? k)%string then (k, v) :: rest else (k', v') :: update k v rest
  end.

Fixpoint parse_value (fuel : nat) (s : string) : option (value * string) :=
  match fuel with
  | O => None
  | S fuel' =>
      match skip_ws s with
      | String "{" r =>
          match skip_ws r with
          | String "}" r' => Some (Obj [], r')
          | r' =>
              match parse_members fuel' r' [] with
              | Some (props, rest) => Some (Obj props, rest)
              | None => None
              end
          end
      | String "[" r =>
          match skip_ws r with
          | String "]" r' => Some (Arr [], r')
          | r' =>
              match parse_elements fuel' r' with
              | Some (items, rest) => Some (Arr items, rest)
              | None => None
              end
          end
      | String "034" r =>
          match string_body r with
          | Some (body, rest) => Some (Str body, rest)
          | None => None
          end
      | String "t" (String "r" (String "u" (String "e" r))) =>
          Some (Bool true, r)
      | String "f" (String "a" (String "l" (String "s" (String "e" r)))) =>
          Some (Bool false, r)
      | String "n" (String "u" (String "l" (String "l" r))) =>
          Some (Null, r)
      | t =>
          match integer_literal t with
          | Some (n, rest) =>
              Some (Num (number_of_Z
                           (match t with String "-" _ => true | _ => false end)
                           n), rest)
          | None => None
          end
      end
  end

with parse_members (fuel : nat) (s : string) (acc : list (string * value))
  : option (list (string * value) * string) :=
  match fuel with
  | O => None
  | S fuel' =>
      match skip_ws s with
      | String "034" r =>
          match string_body r with
          | Some (k, r1) =>
              match skip_ws r1 with
              | String ":" r2 =>
                  match parse_value fuel' r2 with
                  | Some (v, r3) =>
                      match skip_ws r3 with
                      | String "," r4 => parse_members fuel' r4 (update k v acc)
                      | String "}" r4 => Some (update k v acc, r4)
                      | _ => None
                      end
                  | None => None
                  end
              | _ => None
              end
          | None => None
          end
      | _ => None
      end
  end

with parse_elements (fuel : nat) (s : string)
  : option (list value * string) :=
  match fuel with
  | O => None
  | S fuel' =>
      match parse_value fuel' s with
      | Some (v, r) =>
          match skip_ws r with
          | String "," r' =>
              match parse_elements fuel' r' with
              | Some (vs, rest) => Some (v :: vs, rest)
              | None => None
              end
          | String "]" r' => Some ([v], r')
          | _ => None
          end
      | None => None
      end
  end.

Definition parse (text : string) : option value :=
  match parse_value (2 * String.length text + 2) text with
  | Some (v, rest) =>
      match skip_ws rest with
      | EmptyString => Some v
      | _ => None
      end
  | None => None
  end.

(** The wording of V8. *)
Definition read_message (v : value) (k : string) : string :=
  "Cannot read properties of "
  ++ match v with Undefined => "undefined" | _ => "null" end
  ++ " (reading '" ++ k ++ "')".

#[export] Instance host : Host :=
  {| toLowerCase := JS.ascii_lower;
     toUpperCase := JS.ascii_upper;
     JSON_parse := parse;
     nullish_read_message := read_message |}.

(** [{"error":"City not found."}] *)
Definition city_not_found_text : string :=
  "{" ++ dquote ++ "error" ++ dquote ++ ":"
  ++ dquote ++ "City not found." ++ dquote ++ "}".

(** [{"error":"","city":"Paris"}] *)
Definition empty_error_text : string :=
  "{" ++ dquote ++ "error" ++ dquote ++ ":" ++ dquote ++ dquote ++ ","
  ++ dquote ++ "city" ++ dquote ++ ":" ++ dquote ++ "Paris" ++ dquote ++ "}".

(** [{"city":"Paris","conditions":"Sunny","windSpeed":"10 mph"}] *)
Definition paris_text : string :=
  "{" ++ dquote ++ "city" ++ dquote ++ ":" ++ dquote ++ "Paris" ++ dquote ++ ","
  ++ dquote ++ "conditions" ++ dquote ++ ":" ++ dquote ++ "Sunny" ++ dquote ++ ","
  ++ dquote ++ "windSpeed" ++ dquote ++ ":" ++ dquote ++ "10 mph" ++ dquote ++ "}".

Definition paris : value :=
  Obj [("city", Str "Paris"); ("conditions", Str "Sunny");
       ("windSpeed", Str "10 mph")].

(** The form filled in with a city, on the day of the first render. *)
Definition ready : state := setCity (initial "2026-11-02") "Paris".

End Reference.

(** ** The classification tables in the words of the specification

    These three definitions follow the specification, not the program;
    the theorems below compare the program with them. *)

(** A condition matches when it contains one of the words, or all of them. *)
Inductive pattern : Type :=
| AnyOf (words : list string)
| AllOf (words : list string).

Definition matches (l : string) (p : pattern) : bool :=
  match p with
  | AnyOf words => existsb (JS.includes l) words
  | AllOf words => forallb (JS.includes l) words
  end.

(** Icon selection, highest priority first. *)
Definition icon_priority : list (pattern * string) :=
  [ (AnyOf ["sun"; "clear"], "☀️");
    (AllOf ["partly"; "cloud"], "⛅️");
    (AnyOf ["cloud"], "☁️");
    (AnyOf ["rain"; "drizzle"], "🌧️");
    (AnyOf ["thunder"; "storm"], "⛈️");
    (AnyOf ["snow"], "❄️");
    (AnyOf ["mist"; "fog"], "🌫️") ].

(** First match wins. *)
Fixpoint first_match (l : string) (table : list (pattern * string))
    (default : string) : string :=
  match table with
  | [] => default
  | (p, glyph) :: rest =>
      if matches l p then glyph else first_match l rest default
  end.

(** The Beaufort bands below the terminal one: inclusive upper threshold
    and label, in increasing order. *)
Definition beaufort_scale : list (Z * string) :=
  [ (1, "Calm"); (3, "Light air"); (7, "Light breeze");
    (12, "Gentle breeze"); (18, "Moderate breeze"); (24, "Fresh breeze");
    (31, "Strong breeze"); (38, "High wind"); (46, "Gale");
    (54, "Strong gale") ].

(** The label of the first band whose threshold is not exceeded. *)
Fixpoint band (scale : list (Z * string)) (terminal : string) (speed : Z)
  : string :=
  match scale with
  | [] => terminal
  | (threshold, label) :: rest =>
      if speed <=? threshold then label else band rest terminal speed
  end.

(** The letter [c] is present in [d]. *)
Definition has_letter (c : ascii) (d : string) : Prop :=
  In c (list_ascii_of_string d).

(** A run of decimal digits as text. *)
Fixpoint digits_text (ds : list Z) : string :=
  match ds with
  | [] => EmptyString
  | d :: rest => String (ascii_of_N (Z.to_N (48 + d))) (digits_text rest)
  end.

(** ** A reading of the specification's invariant on [error]

    The presence of the [error] property alone makes the payload an error
    record, whatever the property holds.  This is the specification's
    sentence; the theorems below compare the program with it. *)
Definition error_presence_decides : Prop :=
  forall (host : Host) (st : state) (text : string)
         (props : list (string * value)),
    city st <> "" -> selectedDate st <> "" ->
    JSON_parse text = Some (Obj props) ->
    has_own "error" props = true ->
    error (settled st (Resolves text)) = lookup "error" props
    /\ weather_results (settled st (Resolves text)) = None.

(** ** The order of the Beaufort labels *)

(** The eleven labels, weakest wind first. *)
Definition beaufort_labels : list string :=
  (map snd beaufort_scale ++ ["Storm"])%list.

(** The position of a label in a list; the length of the list when it
    does not occur. *)
Fixpoint position (label : string) (labels : list string) : nat :=
  match labels with
  | [] => O
  | l :: rest => if (l =? label)%string then O else S (position label rest)
  end.

Definition beaufort_rank (label : string) : nat :=
  position label beaufort_labels.

(** ** Sessions

    The events of the form, one after the other.  A submission is taken
    with what its call does and runs to its end before the next event: the
    three controls are disabled while a call is pending. *)
Inductive event : Type :=
| ChangeCity (v : string)
| ChangeDate (v : string)
| Submit (o : outcome).

Definition step {host : Host} (st : state) (e : event) : state :=
  match e with
  | ChangeCity v => setCity st v
  | ChangeDate v => setSelectedDate st v
  | Submit o => settled st o
  end.

Definition session {host : Host} (today : string) (events : list event)
  : state :=
  fold_left step events (initial today).

(** ** The records of the response (lines 10-41 and 164-209)

    The response schema requires every property of an hourly and of a
    daily entry, and none of the properties of the record itself: a
    property of the record may be missing, and is [undefined] then. *)

Module Hourly.
Record t : Type :=
  { time : string;
    temperature : string;
    temperatureUnit : string;
    conditions : string;
    precipitationProbability : string;
    precipitationType : string }.
End Hourly.

Module Daily.
Record t : Type :=
  { day : string;
    highTemperature : string;
    lowTemperature : string;
    temperatureUnit : string;
    conditions : string;
    precipitationProbability : string;
    precipitationType : string }.
End Daily.

Module Weather.
Record t : Type :=
  { city : option string;
    temperature : option string;
    temperatureUnit : option string;
    conditions : option string;
    windSpeed : option string;
    windDirection : option string;
    precipitationProbability : option string;
    precipitationType : option string;
    hourlyForecast : option (list Hourly.t);
    dailyForecast : option (list Daily.t) }.
End Weather.

(** *** Reading a parsed payload through the schema *)

(** A required string property. *)
Definition required_string (k : string) (props : list (string * value))
  : option string :=
  match lookup k props with
  | Str s => Some s
  | _ => None
  end.

(** A string property that may be missing: [None] when it holds anything
    but a string. *)
Definition optional_string (k : string) (props : list (string * value))
  : option (option string) :=
  match lookup k props with
  | Undefined => Some None
  | Str s => Some (Some s)
  | _ => None
  end.

Definition decode_hourly (v : value) : option Hourly.t :=
  match v with
  | Obj props =>
      match required_string "time" props,
            required_string "temperature" props,
            required_string "temperatureUnit" props,
            required_string "conditions" props,
            required_string "precipitationProbability" props,
            required_string "precipitationType" props with
      | Some a, Some b, Some c, Some d, Some e, Some f =>
          Some {| Hourly.time := a; Hourly.temperature := b;
                  Hourly.temperatureUnit := c; Hourly.conditions := d;
                  Hourly.precipitationProbability := e;
                  Hourly.precipitationType := f |}
      | _, _, _, _, _, _ => None
      end
  | _ => None
  end.

Definition decode_daily (v : value) : option Daily.t :=
  match v with
  | Obj props =>
      match required_string "day" props,
            required_string "highTemperature" props,
            required_string "lowTemperature" props,
            required_string "temperatureUnit" props,
            required_string "conditions" props,
            required_string "precipitationProbability" props,
            required_string "precipitationType" props with
      | Some a, Some b, Some c, Some d, Some e, Some f, Some g =>
          Some {| Daily.day := a; Daily.highTemperature := b;
                  Daily.lowTemperature := c; Daily.temperatureUnit := d;
                  Daily.conditions := e;
                  Daily.precipitationProbability := f;
                  Daily.precipitationType := g |}
      | _, _, _, _, _, _, _ => None
      end
  | _ => None
  end.

Fixpoint decode_all {A : Type} (f : value -> option A) (items : list value)
  : option (list A) :=
  match items with
  | [] => Some []
  | v :: rest =>
      match f v, decode_all f rest with
      | Some a, Some l => Some (a :: l)
      | _, _ => None
      end
  end.

(** An array property that may be missing. *)
Definition optional_array {A : Type} (f : value -> option A)
    (k : string) (props : list (string * value)) : option (option (list A)) :=
  match lookup k props with
  | Undefined => Some None
  | Arr items =>
      match decode_all f items with
      | Some l => Some (Some l)
      | None => None
      end
  | _ => None
  end.

(** The payload as a record, when it has the types of the schema. *)
Definition decode (v : value) : option Weather.t :=
  match v with
  | Obj props =>
      match optional_string "city" props,
            optional_string "temperature" props,
            optional_string "temperatureUnit" props,
            optional_string "conditions" props,
            optional_string "windSpeed" props,
            optional_string "windDirection" props,
            optional_string "precipitationProbability" props,
            optional_string "precipitationType" props,
            optional_array decode_hourly "hourlyForecast" props,
            optional_array decode_daily "dailyForecast" props with
      | Some a, Some b, Some c, Some d, Some e, Some f, Some g, Some h,
        Some i, Some j =>
          Some {| Weather.city := a; Weather.temperature := b;
                  Weather.temperatureUnit := c; Weather.conditions := d;
                  Weather.windSpeed := e; Weather.windDirection := f;
                  Weather.precipitationProbability := g;
                  Weather.precipitationType := h;
                  Weather.hourlyForecast := i; Weather.dailyForecast := j |}
      | _, _, _, _, _, _, _, _, _, _ => None
      end
  | _ => None
  end.

(** The weather hook holds [null], or a payload that reads as [w]. *)
Definition reads_as (v : value) (w : option Weather.t) : Prop :=
  (v = Null /\ w = None) \/ (exists wd, decode v = Some wd /\ w = Some wd).

(** ** What the components render

    The element tree a component returns.  A child written in braces is
    the value of its expression; text written between tags is a string
    child, its lines trimmed as JSX trims them. *)

Inductive handler : Type :=
| GetWeather
| SetCityFromInput
| SetSelectedDateFromInput.

Inductive attr : Type :=
| AStr (s : string)
| ABool (b : bool)
| AKey (index : nat)
| AHandler (h : handler).

Inductive node : Type :=
| Child (v : value)
| Items (items : list node)
| Element (tag : string) (attrs : list (string * attr)) (children : list node).

Definition text (s : string) : node := Child (Str s).

(** [{x}] for a property that may be missing. *)
Definition child_of (x : option string) : node :=
  match x with
  | Some s => Child (Str s)
  | None => Child Undefined
  end.

(** [<WeatherSkeleton />], lines 102-132. *)
Definition WeatherSkeleton : node :=
  let skeleton c := Element "div" [("className", AStr c)] [] in
  Element "div"
    [("className", AStr "skeleton-loader");
     ("aria-label", AStr "Loading weather data")]
    [ Element "div" [("className", AStr "skeleton-card")]
        [ skeleton "skeleton skeleton-title";
          skeleton "skeleton skeleton-icon";
          skeleton "skeleton skeleton-temp";
          skeleton "skeleton skeleton-text";
          skeleton "skeleton skeleton-text";
          skeleton "skeleton skeleton-text" ];
      Element "div" [("className", AStr "skeleton-section")]
        [ skeleton "skeleton skeleton-subtitle";
          Element "div" [("className", AStr "skeleton-hourly-scroll")]
            [ skeleton "skeleton-hourly-card";
              skeleton "skeleton-hourly-card";
              skeleton "skeleton-hourly-card";
              skeleton "skeleton-hourly-card";
              skeleton "skeleton-hourly-card" ] ];
      Element "div" [("className", AStr "skeleton-section")]
        [ skeleton "skeleton skeleton-subtitle";
          Element "div" [("className", AStr "skeleton-daily-list")]
            [ skeleton "skeleton-daily-item";
              skeleton "skeleton-daily-item";
              skeleton "skeleton-daily-item";
              skeleton "skeleton-daily-item" ] ] ].

(** The host's calendar: [new Date(iso).toLocaleDateString(undefined,
    options)] with the options of line 275; it does not throw, an invalid
    date reads Invalid Date. *)
Class Locale : Type :=
  { toLocaleDateString : string -> string }.

(** [l.map((x, index) => f index x)] *)
Fixpoint mapi_from {A B : Type} (f : nat -> A -> B) (index : nat) (l : list A)
  : list B :=
  match l with
  | [] => []
  | x :: rest => f index x :: mapi_from f (S index) rest
  end.

Definition mapi {A B : Type} (f : nat -> A -> B) (l : list A) : list B :=
  mapi_from f O l.

Section Rendering.

Context {host : Host} {locale : Locale}.

(** [getWeatherIcon(x)] for a property that may be missing: calling
    [toLowerCase] on [undefined] throws, which is [None]. *)
Definition icon_of (x : option string) : option string :=
  match x with
  | Some condition => Some (getWeatherIcon condition)
  | None => None
  end.

(** [getWindDirectionIcon(x)], as [icon_of]. *)
Definition arrow_of (x : option string) : option string :=
  match x with
  | Some direction => Some (getWindDirectionIcon direction)
  | None => None
  end.

(** [getBeaufortDescription(x)]: [parseInt(undefined, 10)] is NaN, and the
    argument is returned as it is. *)
Definition beaufort_of (x : option string) : value :=
  match x with
  | Some speedStr => Str (getBeaufortDescription speedStr)
  | None => Undefined
  end.

(** [x !== "None" && x] *)
Definition unless_None (x : option string) : node :=
  match x with
  | Some s => if (s =? "None")%string then Child (Bool false) else Child (Str s)
  | None => Child Undefined
  end.

(** Lines 293-301. *)
Definition hourly_card (index : nat) (hour : Hourly.t) : node :=
  Element "div" [("key", AKey index); ("className", AStr "hourly-card")]
    [ Element "p" [("className", AStr "hourly-time")]
        [Child (Str (Hourly.time hour))];
      Element "div" [("className", AStr "hourly-icon")]
        [Child (Str (getWeatherIcon (Hourly.conditions hour)))];
      Element "p" [("className", AStr "hourly-temp")]
        [ Child (Str (Hourly.temperature hour)); text "°";
          Child (Str (Hourly.temperatureUnit hour)) ];
      Element "p" [("className", AStr "hourly-conditions")]
        [Child (Str (Hourly.conditions hour))];
      Element "p" [("className", AStr "hourly-precipitation")]
        [ Child (Str (Hourly.precipitationProbability hour)); text " ";
          unless_None (Some (Hourly.precipitationType hour)) ] ].

(** Lines 312-326. *)
Definition daily_card (index : nat) (d : Daily.t) : node :=
  Element "div" [("key", AKey index); ("className", AStr "daily-card")]
    [ Element "div" [("className", AStr "daily-left")]
        [ Element "div" [("className", AStr "daily-icon")]
            [Child (Str (getWeatherIcon (Daily.conditions d)))];
          Element "div" [("className", AStr "daily-info")]
            [ Element "p" [("className", AStr "daily-day")]
                [Child (Str (Daily.day d))];
              Element "p" [("className", AStr "daily-conditions")]
                [Child (Str (Daily.conditions d))];
              Element "p" [("className", AStr "daily-precipitation")]
                [ text "Precip: ";
                  Child (Str (Daily.precipitationProbability d)); text " ";
                  unless_None (Some (Daily.precipitationType d)) ] ] ];
      Element "p" [("className", AStr "daily-temp")]
        [ Child (Str (Daily.highTemperature d)); text "° / ";
          Child (Str (Daily.lowTemperature d)); text "°";
          Child (Str (Daily.temperatureUnit d)) ] ].

(** Lines 288-305: [list && list.length > 0 && (...)]. *)
Definition hourly_section (l : option (list Hourly.t)) : node :=
  match l with
  | None => Child Undefined
  | Some [] => Child (Bool false)
  | Some hours =>
      Element "div" [("className", AStr "hourly-forecast")]
        [ Element "h3" [] [text "Hourly Forecast"];
          Element "div" [("className", AStr "hourly-scroll")]
            [Items (mapi hourly_card hours)] ]
  end.

(** Lines 307-330. *)
Definition daily_section (l : option (list Daily.t)) : node :=
  match l with
  | None => Child Undefined
  | Some [] => Child (Bool false)
  | Some days =>
      Element "div" [("className", AStr "daily-forecast")]
        [ Element "h3" [] [text "Daily Forecast"];
          Element "div" [("className", AStr "daily-list")]
            [Items (mapi daily_card days)] ]
  end.

(** Lines 272-331: the result block; [None] when rendering throws. *)
Definition weather_block (date : string) (w : Weather.t) : option node :=
  match icon_of (Weather.conditions w), arrow_of (Weather.windDirection w) with
  | Some icon, Some arrow =>
      Some
        (Element "div"
           [("className", AStr "weather-results"); ("aria-live", AStr "polite")]
           [ Element "div" [("className", AStr "weather-card")]
               [ Element "h2" [] [child_of (Weather.city w)];
                 Element "p" [("className", AStr "conditions")]
                   [text (toLocaleDateString (date ++ "T00:00:00"))];
                 Element "div" [("className", AStr "weather-icon")] [text icon];
                 Element "p" [("className", AStr "temperature")]
                   [ child_of (Weather.temperature w); text "°";
                     child_of (Weather.temperatureUnit w) ];
                 Element "p" [("className", AStr "conditions")]
                   [child_of (Weather.conditions w)];
                 Element "p" [("className", AStr "wind-info")]
                   [ text "Wind: ";
                     Element "span" [("className", AStr "wind-arrow")]
                       [text arrow];
                     Child (beaufort_of (Weather.windSpeed w));
                     text " ("; child_of (Weather.windSpeed w); text ")" ];
                 Element "p" [("className", AStr "precipitation-info")]
                   [ text "Precipitation: ";
                     child_of (Weather.precipitationProbability w); text " ";
                     unless_None (Weather.precipitationType w) ] ];
             hourly_section (Weather.hourlyForecast w);
             daily_section (Weather.dailyForecast w) ])
  | _, _ => None
  end.

(** Lines 244-266. *)
Definition weather_form (today : string) (st : state) : node :=
  Element "form"
    [("onSubmit", AHandler GetWeather); ("className", AStr "weather-form")]
    [ Element "input"
        [ ("type", AStr "text"); ("value", AStr (city st));
          ("onChange", AHandler SetCityFromInput);
          ("placeholder", AStr "Enter a city...");
          ("aria-label", AStr "City Name");
          ("disabled", ABool (loading st)); ("required", ABool true) ] [];
      Element "input"
        [ ("type", AStr "date"); ("value", AStr (selectedDate st));
          ("onChange", AHandler SetSelectedDateFromInput);
          ("min", AStr today);
          ("aria-label", AStr "Select Date");
          ("disabled", ABool (loading st)); ("required", ABool true) ] [];
      Element "button"
        [("type", AStr "submit"); ("disabled", ABool (loading st))]
        [text "Get Weather"] ].

(** Lines 268-271, the three conditional children. *)
Definition skeleton_child (st : state) : node :=
  if loading st then WeatherSkeleton else Child (Bool false).

Definition error_child (st : state) : node :=
  if truthy (error st)
  then Element "p" [("className", AStr "error")] [Child (error st)]
  else Child (error st).

Definition results_child (st : state) (w : option Weather.t) : option node :=
  if loading st then Some (Child (Bool false))
  else
    match w with
    | None => Some (Child Null)
    | Some wd => weather_block (selectedDate st) wd
    end.

(** [App], lines 241-334: the tree it returns in state [st], whose weather
    reads as [w]; [None] when it throws.  [today] is the day of this
    render. *)
Definition App (today : string) (st : state) (w : option Weather.t)
  : option node :=
  match results_child st w with
  | Some results =>
      Some
        (Element "main" [("className", AStr "container")]
           [ Element "h1" [] [text "Weather Predictor"];
             weather_form today st;
             skeleton_child st;
             error_child st;
             results ])
  | None => None
  end.

End Rendering.

(** ** The error boundary (lines 337-363) *)

Record boundary : Type := { hasError : bool }.

(** The constructor. *)
Definition boundary_initial : boundary := {| hasError := false |}.

Definition getDerivedStateFromError : boundary := {| hasError := true |}.

Definition fallback : node :=
  Element "div" [("className", AStr "error-boundary")]
    [ Element "h2" [] [text "Oops! Something went wrong."];
      Element "p" []
        [text "We're sorry for the inconvenience. Please try refreshing the page."] ].

(** [render]: the fallback, or the children. *)
Definition ErrorBoundary_render (b : boundary) (children : node) : node :=
  if hasError b then fallback else children.

(** One render of the page by React: the boundary renders its child, and
    a child that throws puts the boundary in the state
    [getDerivedStateFromError] returns and has it rendered again.  A
    boundary that has caught an error does not render its child.  The
    result is the state of the boundary and what is on the page. *)
Definition render_page (b : boundary) (child : option node) : boundary * node :=
  if hasError b then (b, ErrorBoundary_render b (Child Undefined))
  else
    match child with
    | Some tree => (b, ErrorBoundary_render b tree)
    | None =>
        (getDerivedStateFromError,
         ErrorBoundary_render getDerivedStateFromError (Child Undefined))
    end.

(** The page after the renders of the child, one after the other. *)
Fixpoint render_pages (b : boundary) (page : node) (children : list (option node))
  : boundary * node :=
  match children with
  | [] => (b, page)
  | child :: rest =>
      let '(b', page') := render_page b child in
      render_pages b' page' rest
  end.

(** *** Looking into a tree *)

(** The elements of a tree, in document order. *)
Fixpoint elements (n : node) : list node :=
  match n with
  | Child _ => []
  | Items items => flat_map elements items
  | Element _ _ children => n :: flat_map elements children
  end.

Fixpoint attr_of (k : string) (attrs : list (string * attr)) : option attr :=
  match attrs with
  | [] => None
  | (k', a) :: rest => if (k' =? k)%string then Some a else attr_of k rest
  end.

Definition attribute (k : string) (n : node) : option attr :=
  match n with
  | Element _ attrs _ => attr_of k attrs
  | _ => None
  end.

Definition has_class (c : string) (n : node) : bool :=
  match attribute "className" n with
  | Some (AStr c') => (c' =? c)%string
  | _ => false
  end.

Definition has_tag (t : string) (n : node) : bool :=
  match n with
  | Element t' _ _ => (t' =? t)%string
  | _ => false
  end.

Definition children_of (n : node) : list node :=
  match n with
  | Element _ _ children => children
  | _ => []
  end.

(** The elements of class [c], in document order. *)
Definition by_class (c : string) (tree : node) : list node :=
  filter (has_class c) (elements tree).

(** The inputs and the button. *)
Definition controls (tree : node) : list node :=
  filter (fun n => has_tag "input" n || has_tag "button" n) (elements tree).

(** ** Sample data for the rendering *)

Module Sample.

(** A calendar that writes the day as the form holds it. *)
#[export] Instance locale : Locale :=
  {| toLocaleDateString := fun iso => String.substring 0 10 iso |}.

(** [{"city":"Paris"}]: a city and nothing else. *)
Definition city_only_text : string :=
  "{" ++ dquote ++ "city" ++ dquote ++ ":" ++ dquote ++ "Paris" ++ dquote ++ "}".

Definition city_only : Weather.t :=
  {| Weather.city := Some "Paris"; Weather.temperature := None;
     Weather.temperatureUnit := None; Weather.conditions := None;
     Weather.windSpeed := None; Weather.windDirection := None;
     Weather.precipitationProbability := None;
     Weather.precipitationType := None;
     Weather.hourlyForecast := None; Weather.dailyForecast := None |}.

Definition hour (t c : string) : Hourly.t :=
  {| Hourly.time := t; Hourly.temperature := "18";
     Hourly.temperatureUnit := "C"; Hourly.conditions := c;
     Hourly.precipitationProbability := "10%";
     Hourly.precipitationType := "None" |}.

Definition day (d c : string) : Daily.t :=
  {| Daily.day := d; Daily.highTemperature := "20";
     Daily.lowTemperature := "11"; Daily.temperatureUnit := "C";
     Daily.conditions := c; Daily.precipitationProbability := "60%";
     Daily.precipitationType := "Rain" |}.

(** A record for Paris with two hours and one day. *)
Definition forecast : Weather.t :=
  {| Weather.city := Some "Paris"; Weather.temperature := Some "18";
     Weather.temperatureUnit := Some "C"; Weather.conditions := Some "Sunny";
     Weather.windSpeed := Some "10 mph"; Weather.windDirection := Some "NW";
     Weather.precipitationProbability := Some "10%";
     Weather.precipitationType := Some "None";
     Weather.hourlyForecast := Some [hour "09:00" "Sunny"; hour "10:00" "Cloudy"];
     Weather.dailyForecast := Some [day "Monday" "Light rain"] |}.

End Sample.

(** The entries of a list property, none when it is missing. *)
Definition entries {A : Type} (l : option (list A)) : list A :=
  match l with
  | Some items => items
  | None => []
  end.

(** ** A reading of the specification's sentence on a missing city *)



(** ** More sample data *)

Module Sunny.

(** [{"city":"Paris","conditions":"Sunny","windSpeed":"10 mph",
    "windDirection":"NW"}] *)
Definition text : string :=
  "{" ++ dquote ++ "city" ++ dquote ++ ":" ++ dquote ++ "Paris" ++ dquote ++ ","
  ++ dquote ++ "conditions" ++ dquote ++ ":" ++ dquote ++ "Sunny" ++ dquote ++ ","
  ++ dquote ++ "windSpeed" ++ dquote ++ ":" ++ dquote ++ "10 mph" ++ dquote ++ ","
  ++ dquote ++ "windDirection" ++ dquote ++ ":" ++ dquote ++ "NW" ++ dquote
  ++ "}".

Definition props : list (string * value) :=
  [("city", Str "Paris"); ("conditions", Str "Sunny");
   ("windSpeed", Str "10 mph"); ("windDirection", Str "NW")].

Definition record : Weather.t :=
  {| Weather.city := Some "Paris"; Weather.temperature := None;
     Weather.temperatureUnit := None; Weather.conditions := Some "Sunny";
     Weather.windSpeed := Some "10 mph"; Weather.windDirection := Some "NW";
     Weather.precipitationProbability := None;
     Weather.precipitationType := None;
     Weather.hourlyForecast := None; Weather.dailyForecast := None |}.

End Sunny.

(** * Properties *)

(** ** Substring search *)

Lemma includes_unfold (s needle : string) :
  JS.includes s needle
  = String.prefix needle s
    || match s with
       | EmptyString => false
       | String _ rest => JS.includes rest needle
       end.
Proof. destruct s; reflexivity. Qed.

Lemma prefix_iff (needle s : string) :
  String.prefix needle s = true <-> exists post, s = needle ++ post.
Proof.
  revert s; induction needle as [|a needle IH]; intros s; simpl.
  - split; [intros _; now exists s | now destruct s].
  - destruct s as [|b s].
    + split; [discriminate | intros [post H]; discriminate].
    + simpl; destruct (ascii_dec a b) as [->|Hab].
      * rewrite IH; split; intros [post H]; exists post.
        -- now rewrite H.
        -- now injection H.
      * split; [discriminate | intros [post H]; injection H; congruence].
Qed.

Lemma includes_iff (s needle : string) :
  JS.includes s needle = true <-> JS.Substring needle s.
Proof.
  split.
  - induction s as [|a s IH]; rewrite includes_unfold, orb_true_iff.
    + intros [H|H]; [|discriminate].
      apply prefix_iff in H as [post H]; now exists EmptyString, post.
    + intros [H|H].
      * apply prefix_iff in H as [post H]; now exists EmptyString, post.
      * destruct (IH H) as (pre & post & ->); now exists (String a pre), post.
  - intros (pre & post & ->); induction pre as [|a pre IH].
    + rewrite includes_unfold, orb_true_iff; left.
      apply prefix_iff; now exists post.
    + simpl; rewrite IH; apply orb_true_r.
Qed.

Lemma includes_false_iff (s needle : string) :
  JS.includes s needle = false <-> ~ JS.Substring needle s.
Proof.
  rewrite <- includes_iff; destruct (JS.includes s needle); split; congruence.
Qed.

(** Searching for one character is membership of that character. *)
Lemma includes_char_iff (s : string) (c : ascii) :
  JS.includes s (String c EmptyString) = true
  <-> In c (list_ascii_of_string s).
Proof.
  rewrite includes_iff; split.
  - intros (pre & post & ->); induction pre as [|a pre IH]; simpl; auto.
  - induction s as [|a s IH]; simpl; [tauto|].
    intros [->|H].
    + now exists EmptyString, s.
    + destruct (IH H) as (pre & post & ->); now exists (String a pre), post.
Qed.

(** ** The ASCII case mappings conform *)

Lemma map_chars_app (f : ascii -> ascii) (s t : string) :
  JS.map_chars f (s ++ t) = JS.map_chars f s ++ JS.map_chars f t.
Proof. induction s as [|a s IH]; simpl; congruence. Qed.

Lemma map_chars_conforms (g : ascii -> ascii) :
  JS.case_map_conforms (JS.map_chars g) g.
Proof.
  split; [reflexivity|].
  intros u s _ (pre & post & ->).
  exists (JS.map_chars g pre), (JS.map_chars g post).
  now rewrite !map_chars_app.
Qed.

Lemma ascii_lower_char_ascii (a : ascii) :
  JS.is_ascii_char (JS.ascii_lower_char a) = JS.is_ascii_char a.
Proof.
  unfold JS.ascii_lower_char, JS.is_ascii_char, JS.byte.
  destruct (_ && _)%bool eqn:E; [|reflexivity].
  apply andb_true_iff in E as [E1 E2].
  apply N.leb_le in E1, E2.
  rewrite N_ascii_embedding by lia.
  transitivity true; [|symmetry]; apply N.ltb_lt; lia.
Qed.

Lemma ascii_lower_is_ascii (s : string) :
  JS.is_ascii (JS.ascii_lower s) = JS.is_ascii s.
Proof.
  induction s as [|a s IH]; simpl; [reflexivity|].
  unfold JS.ascii_lower in IH; now rewrite IH, ascii_lower_char_ascii.
Qed.

(** ** Wind speed *)

Lemma trimStart_digit (a : ascii) (s : string) (d : Z) :
  JS.digit_value a = Some d -> JS.trimStart (String a s) = String a s.
Proof.
  unfold JS.digit_value; intros H.
  destruct (_ && _)%bool eqn:E in H; [|discriminate].
  apply andb_true_iff in E as [E1 E2]; apply N.leb_le in E1, E2.
  simpl.
  assert (H1 : JS.is_space1 a = false).
  { unfold JS.is_space1.
    apply orb_false_iff; split;
      [apply andb_false_iff; right; apply N.leb_gt | apply N.eqb_neq]; lia. }
  rewrite H1.
  destruct s as [|b s]; [reflexivity|].
  assert (H2 : JS.is_space2 a b = false).
  { unfold JS.is_space2.
    apply andb_false_iff; left; apply N.eqb_neq; lia. }
  rewrite H2.
  destruct s as [|c s]; [reflexivity|].
  assert (H3 : JS.is_space3 a b c = false).
  { unfold JS.is_space3.
    assert (X : forall k, (57 < k)%N -> (JS.byte a =? k)%N = false)
      by (intros k Hk; apply N.eqb_neq; lia).
    now rewrite !X by lia. }
  now rewrite H3.
Qed.

Lemma digit_value_of_digit (d : Z) :
  0 <= d <= 9 -> JS.digit_value (ascii_of_N (Z.to_N (48 + d))) = Some d.
Proof.
  intros H.
  assert (E : d = 0 \/ d = 1 \/ d = 2 \/ d = 3 \/ d = 4 \/ d = 5 \/ d = 6
              \/ d = 7 \/ d = 8 \/ d = 9) by lia.
  repeat destruct E as [->|E]; try subst d; reflexivity.
Qed.

Lemma leading_digits_text (ds : list Z) (rest : string) :
  Forall (fun d => 0 <= d <= 9) ds ->
  JS.leading_digits rest = [] ->
  JS.leading_digits (digits_text ds ++ rest) = ds.
Proof.
  intros Hds Hrest; induction Hds as [|d ds Hd _ IH]; [exact Hrest|].
  cbn [digits_text append JS.leading_digits].
  now rewrite (digit_value_of_digit d Hd), IH.
Qed.

(** [parseInt] reads the digits a string starts with, whatever follows. *)
Lemma parseInt_leading_digits (ds : list Z) (rest : string) :
  ds <> [] ->
  Forall (fun d => 0 <= d <= 9) ds ->
  JS.leading_digits rest = [] ->
  JS.parseInt (digits_text ds ++ rest) = Some (JS.digits_value ds).
Proof.
  intros Hne Hds Hrest.
  destruct ds as [|d ds]; [congruence|].
  pose proof (leading_digits_text (d :: ds) rest Hds Hrest) as L.
  inversion Hds as [|? ? Hd Hds']; subst.
  pose proof (digit_value_of_digit d Hd) as Dv.
  unfold JS.parseInt.
  cbn [digits_text append] in *.
  rewrite (trimStart_digit _ _ d Dv).
  set (a := ascii_of_N (Z.to_N (48 + d))) in *.
  assert (Hm : a <> "-"%char /\ a <> "+"%char).
  { split; intros ->; discriminate Dv. }
  destruct Hm as [Hminus Hplus].
  destruct a as [[] [] [] [] [] [] [] []];
    try (exfalso; apply Hminus; reflexivity);
    try (exfalso; apply Hplus; reflexivity);
    rewrite L; f_equal; lia.
Qed.

Lemma getBeaufortDescription_band (speedStr : string) (speed : Z) :
  JS.parseInt speedStr = Some speed ->
  getBeaufortDescription speedStr = band beaufort_scale "Storm" speed.
Proof.
  intros H; unfold getBeaufortDescription; rewrite H; reflexivity.
Qed.

(** C2: Beaufort classification reads the integer a wind-speed string
    starts with.  When there is none, the string is returned unchanged.
    Otherwise the integer is classified by the inclusive upper thresholds
    1, 3, 7, 12, 18, 24, 31, 38, 46, 54 with the labels Calm to Strong gale,
    ten bands, and everything above 54 is the eleventh band, Storm.  In
    particular 0 is Calm, 5 is Light breeze, 60 is Storm and N/A comes back
    as it is. *)
Theorem getBeaufortDescription_bands (speedStr : string) :
  (JS.parseInt speedStr = None -> getBeaufortDescription speedStr = speedStr)
  /\ (forall speed,
        JS.parseInt speedStr = Some speed ->
        getBeaufortDescription speedStr = band beaufort_scale "Storm" speed
        /\ (54 < speed -> getBeaufortDescription speedStr = "Storm"))
  /\ (forall ds rest,
        ds <> [] -> Forall (fun d => 0 <= d <= 9) ds ->
        JS.leading_digits rest = [] ->
        getBeaufortDescription (digits_text ds ++ rest)
        = band beaufort_scale "Storm" (JS.digits_value ds))
  /\ map fst beaufort_scale = [1; 3; 7; 12; 18; 24; 31; 38; 46; 54]
  /\ map snd beaufort_scale
     = ["Calm"; "Light air"; "Light breeze"; "Gentle breeze";
        "Moderate breeze"; "Fresh breeze"; "Strong breeze"; "High wind";
        "Gale"; "Strong gale"]
  /\ getBeaufortDescription "0" = "Calm"
  /\ getBeaufortDescription "5" = "Light breeze"
  /\ getBeaufortDescription "60" = "Storm"
  /\ getBeaufortDescription "N/A" = "N/A".
Proof.
  split; [|split; [|split]].
  - intros H; unfold getBeaufortDescription; now rewrite H.
  - intros speed H; split; [now apply getBeaufortDescription_band|].
    intros Hs; rewrite (getBeaufortDescription_band _ _ H); simpl.
    repeat match goal with
           | |- context [?a <=? ?b] =>
               destruct (Z.leb_spec a b); [lia|]
           end.
    reflexivity.
  - intros ds rest Hne Hds Hrest.
    apply getBeaufortDescription_band.
    now apply parseInt_leading_digits.
  - repeat split; reflexivity.
Qed.

(** ** Icons *)

Ltac case_includes :=
  repeat match goal with
         | |- context [JS.includes ?s ?w] => destruct (JS.includes s w)
         end.

Lemma getWeatherIcon_first_match {host : Host} (condition : string) :
  getWeatherIcon condition
  = first_match (toLowerCase condition) icon_priority "🌡️".
Proof.
  unfold getWeatherIcon; cbn [first_match icon_priority matches existsb forallb].
  case_includes; reflexivity.
Qed.

(** A word written in any letter case, inside [condition], is found in
    lower case inside the lower-cased condition. *)
Lemma lower_case_word_found {host : Host}
    (lower_ok : JS.case_map_conforms toLowerCase JS.ascii_lower_char)
    (condition u word : string) :
  JS.is_ascii word = true ->
  JS.Substring u condition ->
  JS.ascii_lower u = word ->
  JS.includes (toLowerCase condition) word = true.
Proof.
  intros Hword Hsub Hlow.
  apply includes_iff; rewrite <- Hlow.
  apply (JS.keeps_ascii_runs _ _ lower_ok); [|exact Hsub].
  now rewrite <- ascii_lower_is_ascii, Hlow.
Qed.

(** C3: icon selection lower-cases the condition and tests the words in
    the order sun or clear, partly and cloud, cloud, rain or drizzle,
    thunder or storm, snow, mist or fog; the first match wins and the
    thermometer is the default.  So a condition containing sun or clear in
    any letter case has the sun glyph, and one with partly and cloud (and
    neither sun nor clear) has the partly-cloudy glyph, not the cloud. *)
Theorem getWeatherIcon_priority {host : Host}
    (lower_ok : JS.case_map_conforms toLowerCase JS.ascii_lower_char)
    (condition : string) :
  let l := toLowerCase condition in
  getWeatherIcon condition = first_match l icon_priority "🌡️"
  /\ (forall u,
        JS.Substring u condition ->
        JS.ascii_lower u = "sun" \/ JS.ascii_lower u = "clear" ->
        getWeatherIcon condition = "☀️")
  /\ (JS.Substring "sun" l \/ JS.Substring "clear" l ->
      getWeatherIcon condition = "☀️")
  /\ (JS.Substring "partly" l -> JS.Substring "cloud" l ->
      ~ JS.Substring "sun" l -> ~ JS.Substring "clear" l ->
      getWeatherIcon condition = "⛅️"
      /\ getWeatherIcon condition <> "☁️").
Proof.
  intros l; split; [apply getWeatherIcon_first_match|].
  assert (Hsun : JS.includes l "sun" = true \/ JS.includes l "clear" = true ->
                 getWeatherIcon condition = "☀️").
  { unfold getWeatherIcon; fold l; intros [-> | ->];
      [reflexivity | now rewrite orb_true_r]. }
  split; [|split].
  - intros u Hsub [Hlow|Hlow]; apply Hsun; [left|right];
      now apply (lower_case_word_found lower_ok condition u).
  - rewrite <- !includes_iff; exact Hsun.
  - intros Hp Hc Hs Hl.
    apply includes_iff in Hp, Hc; apply includes_false_iff in Hs, Hl.
    unfold getWeatherIcon; fold l; rewrite Hp, Hc, Hs, Hl; simpl.
    split; [reflexivity | discriminate].
Qed.

(** On the reference host, "Mostly SUNNY" has the sun glyph. *)
Lemma getWeatherIcon_priority_witness :
  JS.case_map_conforms (@toLowerCase Reference.host) JS.ascii_lower_char
  /\ @getWeatherIcon Reference.host "Mostly SUNNY" = "☀️".
Proof.
  split; [apply map_chars_conforms|].
  apply (proj1 (proj2 (getWeatherIcon_priority
                         (host := Reference.host)
                         (map_chars_conforms _) "Mostly SUNNY")) "SUN").
  - now exists "Mostly ", "NY".
  - now left.
Defined.

(** ** Wind direction *)

Lemma wind_icon_by_letters {host : Host} (direction : string) :
  let d := toUpperCase direction in
  let N := has_letter "N" d in
  let S := has_letter "S" d in
  let E := has_letter "E" d in
  let W := has_letter "W" d in
  (N -> E -> getWindDirectionIcon direction = "↗")
  /\ (N -> ~ E -> W -> getWindDirectionIcon direction = "↖")
  /\ (N -> ~ E -> ~ W -> getWindDirectionIcon direction = "↑")
  /\ (~ N -> S -> E -> getWindDirectionIcon direction = "↘")
  /\ (~ N -> S -> ~ E -> W -> getWindDirectionIcon direction = "↙")
  /\ (~ N -> S -> ~ E -> ~ W -> getWindDirectionIcon direction = "↓")
  /\ (~ N -> ~ S -> E -> getWindDirectionIcon direction = "→")
  /\ (~ N -> ~ S -> ~ E -> W -> getWindDirectionIcon direction = "←")
  /\ (~ N -> ~ S -> ~ E -> ~ W -> getWindDirectionIcon direction = "↔️").
Proof.
  intros d N S E W; subst N S E W; unfold has_letter, getWindDirectionIcon.
  fold d; rewrite <- !includes_char_iff.
  destruct (JS.includes d "N"), (JS.includes d "S"),
    (JS.includes d "E"), (JS.includes d "W");
    repeat split; intros; try reflexivity; congruence.
Qed.

Lemma upper_of_ascii {host : Host}
    (upper_ok : JS.case_map_conforms toUpperCase JS.ascii_upper_char)
    (s : string) :
  JS.is_ascii s = true -> toUpperCase s = JS.ascii_upper s.
Proof. apply (JS.on_ascii _ _ upper_ok). Qed.

(** C4: the arrow is chosen from the upper-cased direction by the presence
    of the letters N or S combined with E or W, north and south being
    tested before east and west alone, and it is the two-headed arrow when
    none of the four letters is present; the eight arrows and the
    two-headed one are nine different glyphs.  NE has the north-east
    arrow, SW the south-west arrow and Q the two-headed one. *)
Theorem getWindDirectionIcon_letters {host : Host}
    (upper_ok : JS.case_map_conforms toUpperCase JS.ascii_upper_char)
    (direction : string) :
  let d := toUpperCase direction in
  let N := has_letter "N" d in
  let S := has_letter "S" d in
  let E := has_letter "E" d in
  let W := has_letter "W" d in
  ((N -> E -> getWindDirectionIcon direction = "↗")
   /\ (N -> ~ E -> W -> getWindDirectionIcon direction = "↖")
   /\ (N -> ~ E -> ~ W -> getWindDirectionIcon direction = "↑")
   /\ (~ N -> S -> E -> getWindDirectionIcon direction = "↘")
   /\ (~ N -> S -> ~ E -> W -> getWindDirectionIcon direction = "↙")
   /\ (~ N -> S -> ~ E -> ~ W -> getWindDirectionIcon direction = "↓")
   /\ (~ N -> ~ S -> E -> getWindDirectionIcon direction = "→")
   /\ (~ N -> ~ S -> ~ E -> W -> getWindDirectionIcon direction = "←")
   /\ (~ N -> ~ S -> ~ E -> ~ W -> getWindDirectionIcon direction = "↔️"))
  /\ NoDup ["↗"; "↖"; "↑"; "↘"; "↙"; "↓"; "→"; "←"; "↔️"]
  /\ getWindDirectionIcon "NE" = "↗"
  /\ getWindDirectionIcon "SW" = "↙"
  /\ getWindDirectionIcon "Q" = "↔️".
Proof.
  intros d N S E W; split; [apply wind_icon_by_letters|].
  split.
  - repeat (constructor;
            [simpl; intuition discriminate|]).
    constructor.
  - unfold getWindDirectionIcon.
    rewrite !(upper_of_ascii upper_ok) by reflexivity.
    repeat split; reflexivity.
Qed.

(** On the reference host, "nw" has the north-west arrow. *)
Lemma getWindDirectionIcon_letters_witness :
  JS.case_map_conforms (@toUpperCase Reference.host) JS.ascii_upper_char
  /\ @getWindDirectionIcon Reference.host "nw" = "↖".
Proof.
  split; [apply map_chars_conforms|].
  apply (proj1 (proj2 (proj1 (getWindDirectionIcon_letters
                                (host := Reference.host)
                                (map_chars_conforms _) "nw")))).
  - left; reflexivity.
  - unfold has_letter; simpl; intros [H|[H|[]]]; discriminate H.
  - right; left; reflexivity.
Defined.

(** C9: whenever the upper-cased direction contains the letters S and E
    and not N, the arrow is the south-east one.  The word West, upper-cased
    WEST, holds W, E and S: its arrow is the south-east one, not the west
    one, since letters are looked for and no compass abbreviation is
    matched. *)
Theorem word_West_points_south_east {host : Host}
    (upper_ok : JS.case_map_conforms toUpperCase JS.ascii_upper_char) :
  (forall direction,
      has_letter "S" (toUpperCase direction) ->
      has_letter "E" (toUpperCase direction) ->
      ~ has_letter "N" (toUpperCase direction) ->
      getWindDirectionIcon direction = "↘")
  /\ toUpperCase "West" = "WEST"
  /\ getWindDirectionIcon "West" = "↘"
  /\ getWindDirectionIcon "West" <> "←".
Proof.
  split.
  - intros direction HS HE HN.
    now apply (wind_icon_by_letters direction).
  - pose proof (upper_of_ascii upper_ok "West" eq_refl) as U.
    unfold getWindDirectionIcon; rewrite U.
    repeat split; try reflexivity; discriminate.
Qed.

(** On the reference host, "West" has the south-east arrow. *)
Lemma word_West_points_south_east_witness :
  JS.case_map_conforms (@toUpperCase Reference.host) JS.ascii_upper_char
  /\ @getWindDirectionIcon Reference.host "West" = "↘".
Proof.
  split; [apply map_chars_conforms|].
  apply (proj1 (proj2 (proj2 (word_West_points_south_east
                                (host := Reference.host)
                                (map_chars_conforms _))))).
Defined.

(** ** The request controller *)

Lemma bind_ret {A B : Type} (a : A) (k : A -> comp B) :
  bind (ret a) k = k a.
Proof. unfold bind, ret; now destruct (k a). Qed.

Lemma validation_passes (st : state) :
  city st <> "" -> selectedDate st <> "" -> validation st = None.
Proof.
  intros Hc Hd; unfold validation.
  apply String.eqb_neq in Hc, Hd; now rewrite Hc, Hd.
Qed.

Lemma validation_fails (st : state) :
  city st = "" \/ selectedDate st = "" ->
  validation st
  = Some (if (city st =? "")%string then enter_city_message
          else select_date_message).
Proof.
  unfold validation; intros [H|H].
  - now rewrite H.
  - rewrite H; now destruct (city st =? "")%string.
Qed.

Lemma settled_valid {host : Host} (st : state) (o : outcome) :
  validation st = None ->
  settled st o = run (in_flight st) (getWeather_resume (city st) o).
Proof.
  intros H; unfold settled, in_flight, getWeather, getWeather_begin, run.
  rewrite H, !fold_left_app.
  now destruct o.
Qed.

Lemma in_flight_valid (st : state) :
  validation st = None ->
  in_flight st
  = {| city := city st; selectedDate := selectedDate st;
       weather := Null; loading := true; error := Null |}.
Proof. intros H; unfold in_flight, getWeather_enter; now rewrite H. Qed.

Lemma resume_unparseable {host : Host} (cityName text : string) :
  JSON_parse text = None ->
  getWeather_resume cityName (Resolves text)
  = [ConsoleError ["JSON Parsing Error:"; "Response text:"; text];
     ConsoleError [invalid_response_message];
     SetError (Str invalid_response_message);
     SetLoading false].
Proof.
  intros H; unfold getWeather_resume, try_body, parse_response.
  now rewrite H.
Qed.

Lemma resume_error {host : Host} (cityName text : string) (payload e : value) :
  JSON_parse text = Some payload ->
  reads payload "error" e ->
  truthy e = true ->
  getWeather_resume cityName (Resolves text) = [SetError e; SetLoading false].
Proof.
  intros Hp He Ht; unfold getWeather_resume, try_body, parse_response.
  rewrite Hp, bind_ret, He, bind_ret, Ht; reflexivity.
Qed.


Lemma resume_success {host : Host}
    (cityName text : string) (payload e c : value) :
  JSON_parse text = Some payload ->
  reads payload "error" e -> truthy e = false ->
  reads payload "city" c -> truthy c = true ->
  getWeather_resume cityName (Resolves text)
  = [SetWeather payload; SetLoading false].
Proof.
  intros Hp He Ht Hc Hf; unfold getWeather_resume, try_body, parse_response.
  rewrite Hp, bind_ret, He, bind_ret, Ht, Hc, bind_ret, Hf; reflexivity.
Qed.

(** The text [null] is JSON, and reading a property of [null] throws: the
    handler shows the message of the engine's [TypeError]. *)
Lemma resume_null {host : Host} (cityName text : string) :
  JSON_parse text = Some Null ->
  getWeather_resume cityName (Resolves text)
  = [ConsoleError [nullish_read_message Null "error"];
     SetError (Str (nullish_read_message Null "error"));
     SetLoading false].
Proof.
  intros Hp; unfold getWeather_resume, try_body, parse_response.
  rewrite Hp, bind_ret; reflexivity.
Qed.

Lemma resume_rejects {host : Host} (cityName : string) (err : thrown) :
  getWeather_resume cityName (Rejects err)
  = (catch_handler err ++ [SetLoading false])%list.
Proof. reflexivity. Qed.


(** C5: a submission whose city is empty, or whose date is empty, issues no
    external call; the handler stores the validation message, which is
    shown, and the loading flag is left as it was: the loading state is not
    entered. *)
Theorem invalid_submission_makes_no_call {host : Host}
    (st : state) (o : outcome) :
  city st = "" \/ selectedDate st = "" ->
  let st' := settled st o in
  calls (getWeather st o) = []
  /\ (city st = "" -> error st' = Str enter_city_message)
  /\ (city st <> "" -> error st' = Str select_date_message)
  /\ (exists msg,
        error_paragraph st' = Some (Str msg)
        /\ (msg = enter_city_message \/ msg = select_date_message))
  /\ loading st' = loading st
  /\ ~ In (SetLoading true) (getWeather st o)
  /\ (loading st = false -> shows_skeleton st' = false).
Proof.
  intros H st'; subst st'.
  unfold settled, getWeather, getWeather_begin, getWeather_enter.
  rewrite (validation_fails st H).
  destruct (city st =? "")%string eqn:E;
    [apply String.eqb_eq in E | apply String.eqb_neq in E]; simpl.
  all: split; [reflexivity|].
  all: split; [intros Hc; first [reflexivity | congruence]|].
  all: split; [intros Hc; first [reflexivity | congruence]|].
  all: split; [eexists; split; [reflexivity | auto]|].
  all: split; [reflexivity|].
  all: split; [intros [X|[X|[]]]; discriminate X | auto].
Qed.

(** The first render has an empty city: submitting it makes no call and
    asks for a city. *)
Lemma invalid_submission_makes_no_call_witness :
  (city (initial "2026-11-02") = ""
   \/ selectedDate (initial "2026-11-02") = "")
  /\ calls (@getWeather Reference.host (initial "2026-11-02")
              (Resolves Reference.paris_text)) = []
  /\ error (@settled Reference.host (initial "2026-11-02")
              (Resolves Reference.paris_text))
     = Str "Please enter a city name.".
Proof.
  pose proof (invalid_submission_makes_no_call
                (host := Reference.host) (initial "2026-11-02")
                (Resolves Reference.paris_text) (or_introl eq_refl)) as T.
  split; [left; reflexivity|].
  split; [exact (proj1 T) | exact (proj1 (proj2 T) eq_refl)].
Defined.

(** C10: a failed validation leaves the stored weather result as it was:
    the handler sets the error message and returns.  A result that was
    displayed stays displayed, now beside the validation message. *)
Theorem invalid_submission_keeps_result {host : Host}
    (st : state) (o : outcome) :
  city st = "" \/ selectedDate st = "" ->
  let st' := settled st o in
  weather st' = weather st
  /\ (forall w, ~ In (SetWeather w) (getWeather st o))
  /\ (forall w,
        weather_results st = Some w ->
        weather_results st' = Some w
        /\ exists msg, error_paragraph st' = Some (Str msg)).
Proof.
  intros H st'; subst st'.
  unfold settled, getWeather, getWeather_begin, getWeather_enter.
  rewrite (validation_fails st H).
  split; [reflexivity|]; split.
  - intros w [X|[X|[]]]; discriminate X.
  - intros w Hw; split; [exact Hw|].
    destruct (city st =? "")%string; eexists; reflexivity.
Qed.

(** A lookup for Paris succeeds; the city is then erased and the form
    submitted again: the result for Paris is still displayed, beside the
    request for a city. *)
Lemma invalid_submission_keeps_result_witness :
  let shown := @settled Reference.host Reference.ready
                 (Resolves Reference.paris_text) in
  let st := setCity shown "" in
  (city st = "" \/ selectedDate st = "")
  /\ weather_results st = Some Reference.paris
  /\ weather_results
       (@settled Reference.host st (Resolves Reference.paris_text))
     = Some Reference.paris
  /\ exists msg,
       error_paragraph
         (@settled Reference.host st (Resolves Reference.paris_text))
       = Some (Str msg).
Proof.
  split; [left; reflexivity|].
  split; [reflexivity|].
  exact (proj2 (proj2 (invalid_submission_keeps_result
                         (host := Reference.host)
                         (setCity (@settled Reference.host Reference.ready
                                     (Resolves Reference.paris_text)) "")
                         (Resolves Reference.paris_text)
                         (or_introl eq_refl)))
           Reference.paris eq_refl).
Defined.

(** C7: in a submission that passes validation, the weather result and the
    error message are set to null before the external call, which is the
    last thing the handler does before it waits (when line 158 throws the
    same setters have run and no call follows); while the call is pending
    the state holds neither, so no result and no error message of an
    earlier submission is displayed. *)
Theorem valid_submission_clears_before_call {host : Host} (st : state) :
  city st <> "" -> selectedDate st <> "" ->
  (exists before r,
      (forall err,
          getWeather_begin st (Rejects err)
          = (before ++ [GenerateContent r])%list)
      /\ (forall text,
            getWeather_begin st (Resolves text)
            = (before ++ [GenerateContent r])%list)
      /\ (forall err, getWeather_begin st (NoClient err) = before)
      /\ calls before = []
      /\ In (SetWeather Null) before
      /\ In (SetError Null) before
      /\ weather (run st before) = Null
      /\ error (run st before) = Null)
  /\ (forall o,
        getWeather st o
        = (getWeather_begin st o ++ getWeather_resume (city st) o)%list)
  /\ weather (in_flight st) = Null
  /\ error (in_flight st) = Null
  /\ loading (in_flight st) = true
  /\ weather_results (in_flight st) = None
  /\ error_paragraph (in_flight st) = None.
Proof.
  intros Hc Hd.
  pose proof (validation_passes st Hc Hd) as V.
  split; [|split].
  - exists [PreventDefault; SetLoading true; SetWeather Null; SetError Null].
    eexists; unfold getWeather_begin, getWeather_enter; rewrite V.
    split; [reflexivity|]; split; [reflexivity|]; split; [reflexivity|].
    simpl; intuition.
  - intros o; unfold getWeather; now rewrite V.
  - rewrite (in_flight_valid st V); repeat split.
Qed.

(** A state that displays a result and an error, submitted with a city
    and a date: neither is displayed while the call is pending. *)
Lemma valid_submission_clears_before_call_witness :
  let st := {| city := "Paris"; selectedDate := "2026-11-02";
               weather := Reference.paris; loading := false;
               error := Str "City not found." |} in
  (city st <> "" /\ selectedDate st <> "")
  /\ weather_results st = Some Reference.paris
  /\ error_paragraph st = Some (Str "City not found.")
  /\ weather_results (in_flight st) = None
  /\ error_paragraph (in_flight st) = None.
Proof.
  assert (Hc : "Paris" <> "") by discriminate.
  assert (Hd : "2026-11-02" <> "") by discriminate.
  pose proof (valid_submission_clears_before_call
                (host := Reference.host)
                {| city := "Paris"; selectedDate := "2026-11-02";
                   weather := Reference.paris; loading := false;
                   error := Str "City not found." |} Hc Hd) as T.
  split; [split; assumption|].
  split; [reflexivity|]; split; [reflexivity|].
  split; [apply T | apply T].
Defined.

(** C6: when the text of the response does not parse as JSON, the handler
    ends with the invalid-response message stored and shown, a message of
    its own, different from the message for a failed call and from the
    not-found message; the weather result stays null and nothing is
    rendered from it. *)
Theorem unparseable_response_is_reported {host : Host}
    (st : state) (text : string) :
  city st <> "" -> selectedDate st <> "" ->
  JSON_parse text = None ->
  let st' := settled st (Resolves text) in
  error st' = Str invalid_response_message
  /\ error_paragraph st' = Some (Str invalid_response_message)
  /\ weather st' = Null
  /\ weather_results st' = None
  /\ loading st' = false
  /\ invalid_response_message <> unexpected_error_message
  /\ (forall cityName, invalid_response_message <> not_found_message cityName)
  /\ (forall w, ~ In (SetWeather w) (getWeather_resume (city st) (Resolves text))).
Proof.
  intros Hc Hd Hp st'; subst st'.
  rewrite (settled_valid st _ (validation_passes st Hc Hd)).
  rewrite (in_flight_valid st (validation_passes st Hc Hd)).
  rewrite (resume_unparseable _ _ Hp).
  repeat split; try discriminate.
  intros w [X|[X|[X|[X|[]]]]]; discriminate X.
Qed.

(** The reference host is answered with text that is not JSON. *)
Lemma unparseable_response_is_reported_witness :
  (city Reference.ready <> "" /\ selectedDate Reference.ready <> "")
  /\ @JSON_parse Reference.host "Sunny, 18 degrees" = None
  /\ error_paragraph
       (@settled Reference.host Reference.ready (Resolves "Sunny, 18 degrees"))
     = Some (Str "The weather service returned an invalid response. Please try again.")
  /\ weather_results
       (@settled Reference.host Reference.ready (Resolves "Sunny, 18 degrees"))
     = None.
Proof.
  assert (Hc : city Reference.ready <> "") by discriminate.
  assert (Hd : selectedDate Reference.ready <> "") by discriminate.
  pose proof (unparseable_response_is_reported
                (host := Reference.host) Reference.ready
                "Sunny, 18 degrees" Hc Hd eq_refl) as T.
  split; [split; assumption|].
  split; [reflexivity|].
  split; [apply T | apply T].
Defined.






(** C1, as the program has it: when the [error] property of the parsed
    payload is a string that is not empty, the handler stores and shows
    exactly that string, whatever else the payload holds, a city
    included; the weather result stays null and nothing is rendered from
    it. *)
Theorem nonempty_error_is_authoritative {host : Host}
    (st : state) (text : string) (payload : value) (s : string) :
  city st <> "" -> selectedDate st <> "" ->
  JSON_parse text = Some payload ->
  reads payload "error" (Str s) ->
  s <> "" ->
  let st' := settled st (Resolves text) in
  error st' = Str s
  /\ error_paragraph st' = Some (Str s)
  /\ weather st' = Null
  /\ weather_results st' = None
  /\ loading st' = false
  /\ (forall w, ~ In (SetWeather w) (getWeather_resume (city st) (Resolves text))).
Proof.
  intros Hc Hd Hp He Hs st'; subst st'.
  assert (Ht : truthy (Str s) = true)
    by (apply String.eqb_neq in Hs; simpl; now rewrite Hs).
  rewrite (settled_valid st _ (validation_passes st Hc Hd)).
  rewrite (in_flight_valid st (validation_passes st Hc Hd)).
  rewrite (resume_error _ _ _ _ Hp He Ht).
  unfold error_paragraph; simpl; simpl in Ht; rewrite Ht.
  repeat split.
  intros w [X|[X|[]]]; discriminate X.
Qed.

(** The reference host is answered with [{"error":"City not found."}]. *)
Lemma nonempty_error_is_authoritative_witness :
  (city Reference.ready <> "" /\ selectedDate Reference.ready <> "")
  /\ @JSON_parse Reference.host Reference.city_not_found_text
     = Some (Obj [("error", Str "City not found.")])
  /\ "City not found." <> ""
  /\ error_paragraph
       (@settled Reference.host Reference.ready
          (Resolves Reference.city_not_found_text))
     = Some (Str "City not found.")
  /\ weather_results
       (@settled Reference.host Reference.ready
          (Resolves Reference.city_not_found_text))
     = None.
Proof.
  assert (Hc : city Reference.ready <> "") by discriminate.
  assert (Hd : selectedDate Reference.ready <> "") by discriminate.
  assert (Hs : "City not found." <> "") by discriminate.
  pose proof (nonempty_error_is_authoritative
                (host := Reference.host) Reference.ready
                Reference.city_not_found_text
                (Obj [("error", Str "City not found.")]) "City not found."
                Hc Hd eq_refl eq_refl Hs) as T.
  split; [split; assumption|].
  split; [reflexivity|]; split; [assumption|].
  split; [apply T | apply T].
Defined.

(** C1, as the specification states it, fails: the reference host is
    answered with [{"error":"","city":"Paris"}].  The [error] property is
    present, and the payload is taken for a weather record: no error is
    stored or shown, and the result block is rendered from the payload. *)
Lemma empty_error_is_a_success :
  let payload := Obj [("error", Str ""); ("city", Str "Paris")] in
  let st' := @settled Reference.host Reference.ready
               (Resolves Reference.empty_error_text) in
  @JSON_parse Reference.host Reference.empty_error_text = Some payload
  /\ has_own "error" [("error", Str ""); ("city", Str "Paris")] = true
  /\ error st' = Null
  /\ error_paragraph st' = None
  /\ weather_results st' = Some payload
  /\ ~ error_presence_decides.
Proof.
  repeat split.
  intros claim.
  assert (Hc : city Reference.ready <> "") by discriminate.
  assert (Hd : selectedDate Reference.ready <> "") by discriminate.
  destruct (claim Reference.host Reference.ready Reference.empty_error_text
              [("error", Str ""); ("city", Str "Paris")]
              Hc Hd eq_refl eq_refl) as [_ X].
  discriminate X.
Qed.

(** ** The other outcomes of a submission *)

(** Success: a payload of the schema's types with a city, with conditions
    and a wind direction, and with nothing truthy under [error] is stored
    as the weather result, and [App] renders it: the page is the form, no
    skeleton, no error paragraph, and the result block of that record;
    the boundary passes it on. *)
Theorem payload_with_city_is_shown {host : Host} {locale : Locale}
    (today : string) (st : state) (text : string)
    (props : list (string * value)) (wd : Weather.t)
    (condition direction : string) :
  city st <> "" -> selectedDate st <> "" ->
  JSON_parse text = Some (Obj props) ->
  truthy (lookup "error" props) = false ->
  truthy (lookup "city" props) = true ->
  decode (Obj props) = Some wd ->
  Weather.conditions wd = Some condition ->
  Weather.windDirection wd = Some direction ->
  let st' := settled st (Resolves text) in
  weather st' = Obj props
  /\ error st' = Null
  /\ loading st' = false
  /\ reads_as (weather st') (Some wd)
  /\ exists block page,
       weather_block (selectedDate st) wd = Some block
       /\ attribute "className" block = Some (AStr "weather-results")
       /\ page
          = Element "main" [("className", AStr "container")]
              [ Element "h1" [] [Child (Str "Weather Predictor")];
                weather_form today st';
                Child (Bool false);
                Child Null;
                block ]
       /\ App today st' (Some wd) = Some page
       /\ render_page boundary_initial (App today st' (Some wd))
          = (boundary_initial, page).
Proof.
  intros Hc Hd Hp He Hy Hdec Hcond Hdir st'; subst st'.
  rewrite (settled_valid st _ (validation_passes st Hc Hd)).
  rewrite (in_flight_valid st (validation_passes st Hc Hd)).
  rewrite (resume_success _ _ _ _ _ Hp eq_refl He eq_refl Hy).
  split; [reflexivity|]; split; [reflexivity|]; split; [reflexivity|].
  split; [right; exists wd; now split|].
  unfold App, results_child; simpl.
  unfold weather_block, icon_of, arrow_of; rewrite Hcond, Hdir.
  do 2 eexists; repeat split.
Qed.

(** The reference host is answered with a sunny record for Paris. *)
Lemma payload_with_city_is_shown_witness :
  (city Reference.ready <> "" /\ selectedDate Reference.ready <> "")
  /\ @JSON_parse Reference.host Sunny.text = Some (Obj Sunny.props)
  /\ decode (Obj Sunny.props) = Some Sunny.record
  /\ exists block page,
       @weather_block Reference.host Sample.locale "2026-11-02" Sunny.record
       = Some block
       /\ @App Reference.host Sample.locale "2026-11-02"
            (@settled Reference.host Reference.ready (Resolves Sunny.text))
            (Some Sunny.record)
          = Some page
       /\ render_page boundary_initial (Some page) = (boundary_initial, page).
Proof.
  assert (Hc : city Reference.ready <> "") by discriminate.
  assert (Hd : selectedDate Reference.ready <> "") by discriminate.
  split; [split; assumption|].
  split; [reflexivity|]; split; [reflexivity|].
  destruct (payload_with_city_is_shown
              (host := Reference.host) (locale := Sample.locale)
              "2026-11-02" Reference.ready Sunny.text Sunny.props
              Sunny.record "Sunny" "NW"
              Hc Hd eq_refl eq_refl eq_refl eq_refl eq_refl eq_refl)
    as (_ & _ & _ & _ & block & page & B & _ & _ & A & R).
  exists block, page; split; [exact B|]; split; [exact A|].
  now rewrite A in R.
Defined.

(** A call that rejects with an [Error] shows its message; one that
    rejects with anything else shows the generic message.  Either way no
    result is rendered and loading is over. *)
Theorem rejected_call_is_reported {host : Host} (st : state) (err : thrown) :
  city st <> "" -> selectedDate st <> "" ->
  let st' := settled st (Rejects err) in
  error st'
  = Str (match err with
         | ErrorObject m => m
         | NotAnError => unexpected_error_message
         end)
  /\ weather_results st' = None
  /\ loading st' = false.
Proof.
  intros Hc Hd st'; subst st'.
  rewrite (settled_valid st _ (validation_passes st Hc Hd)).
  rewrite (in_flight_valid st (validation_passes st Hc Hd)).
  rewrite resume_rejects.
  destruct err; repeat split.
Qed.

(** The call rejects with something that is no [Error]. *)
Lemma rejected_call_is_reported_witness :
  (city Reference.ready <> "" /\ selectedDate Reference.ready <> "")
  /\ error (@settled Reference.host Reference.ready (Rejects NotAnError))
     = Str "An unexpected API error occurred. Please try again later.".
Proof.
  assert (Hc : city Reference.ready <> "") by discriminate.
  assert (Hd : selectedDate Reference.ready <> "") by discriminate.
  pose proof (rejected_call_is_reported
                (host := Reference.host) Reference.ready NotAnError Hc Hd)
    as T.
  split; [split; assumption | apply T].
Defined.

(** The text [null] is JSON, and reading [error] of [null] throws: the
    handler shows the message of the engine's [TypeError], not the
    invalid-response message and not the not-found message. *)
Theorem null_payload_shows_type_error {host : Host}
    (st : state) (text : string) :
  city st <> "" -> selectedDate st <> "" ->
  JSON_parse text = Some Null ->
  let st' := settled st (Resolves text) in
  error st' = Str (nullish_read_message Null "error")
  /\ weather_results st' = None
  /\ loading st' = false.
Proof.
  intros Hc Hd Hp st'; subst st'.
  rewrite (settled_valid st _ (validation_passes st Hc Hd)).
  rewrite (in_flight_valid st (validation_passes st Hc Hd)).
  rewrite (resume_null _ _ Hp).
  repeat split.
Qed.

(** The reference host is answered with [null]. *)
Lemma null_payload_shows_type_error_witness :
  (city Reference.ready <> "" /\ selectedDate Reference.ready <> "")
  /\ @JSON_parse Reference.host "null" = Some Null
  /\ error (@settled Reference.host Reference.ready (Resolves "null"))
     = Str "Cannot read properties of null (reading 'error')".
Proof.
  assert (Hc : city Reference.ready <> "") by discriminate.
  assert (Hd : selectedDate Reference.ready <> "") by discriminate.
  pose proof (null_payload_shows_type_error
                (host := Reference.host) Reference.ready "null"
                Hc Hd eq_refl) as T.
  split; [split; assumption|].
  split; [reflexivity | apply T].
Defined.

Lemma resume_makes_no_call {host : Host} (cityName : string) (o : outcome) :
  calls (getWeather_resume cityName o) = [].
Proof.
  unfold getWeather_resume, try_body, parse_response.
  destruct o as [[m|]|text|[m|]]; try reflexivity.
  destruct (JSON_parse text) as [payload|]; [|reflexivity].
  rewrite bind_ret.
  destruct payload as [| |b|n|s|items|props]; try reflexivity.
  unfold get; rewrite bind_ret.
  destruct (truthy (lookup "error" props)); [reflexivity|].
  rewrite bind_ret.
  destruct (truthy (lookup "city" props)); reflexivity.
Qed.

(** A submission that passes validation makes exactly one call when the
    client is constructed, whatever the call does, and none when line 158
    throws; the call comes after the three setters, nothing is called
    once the handler goes on, and the handler ends with loading off. *)
Theorem one_call_per_submission {host : Host} (st : state) (o : outcome) :
  city st <> "" -> selectedDate st <> "" ->
  length (calls (getWeather st o))
  = match o with NoClient _ => 0%nat | Rejects _ | Resolves _ => 1%nat end
  /\ calls (getWeather st o) = calls (getWeather_call st o)
  /\ calls (getWeather_enter st) = []
  /\ calls (getWeather_resume (city st) o) = []
  /\ loading (settled st o) = false.
Proof.
  intros Hc Hd; pose proof (validation_passes st Hc Hd) as V.
  assert (E : calls (getWeather_enter st) = [])
    by (unfold getWeather_enter; now rewrite V).
  assert (C : calls (getWeather st o) = calls (getWeather_call st o)).
  { unfold getWeather, getWeather_begin, calls; rewrite V, !filter_app.
    fold (calls (getWeather_enter st)) (calls (getWeather_call st o))
         (calls (getWeather_resume (city st) o)).
    now rewrite E, resume_makes_no_call, app_nil_r. }
  split; [rewrite C; now destruct o|].
  split; [exact C|]; split; [exact E|].
  split; [apply resume_makes_no_call|].
  rewrite (settled_valid st _ V).
  unfold run, getWeather_resume, try_catch_finally.
  destruct (try_body (city st) o) as [log [u|e]];
    rewrite !fold_left_app; reflexivity.
Qed.

(** Two submissions in a row on the reference host, one call each, and a
    submission whose client cannot be constructed. *)
Lemma one_call_per_submission_witness :
  (city Reference.ready <> "" /\ selectedDate Reference.ready <> "")
  /\ length (calls (@getWeather Reference.host Reference.ready
                      (Resolves Reference.paris_text))) = 1%nat
  /\ length (calls (@getWeather Reference.host
                      (@settled Reference.host Reference.ready
                         (Resolves Reference.paris_text))
                      (Resolves Reference.paris_text))) = 1%nat
  /\ length (calls (@getWeather Reference.host Reference.ready
                      (NoClient NotAnError))) = 0%nat.
Proof.
  assert (Hc : city Reference.ready <> "") by discriminate.
  assert (Hd : selectedDate Reference.ready <> "") by discriminate.
  split; [split; assumption|].
  split; [|split].
  - apply (one_call_per_submission (host := Reference.host)
             Reference.ready (Resolves Reference.paris_text) Hc Hd).
  - reflexivity.
  - apply (one_call_per_submission (host := Reference.host)
             Reference.ready (NoClient NotAnError) Hc Hd).
Defined.

(** * Further properties of the helpers *)

(** ** Wind speed *)

Lemma beaufort_label_cases (speedStr : string) (speed : Z) :
  JS.parseInt speedStr = Some speed ->
  In (getBeaufortDescription speedStr) beaufort_labels.
Proof.
  intros H; unfold getBeaufortDescription; rewrite H.
  repeat match goal with
         | |- context [?a <=? ?b] => destruct (a <=? b)
         end; simpl; tauto.
Qed.

(** The bands are ordered: of two wind speeds that [parseInt] reads, the
    higher one never has a label that stands earlier in the scale.  The
    eleven labels are different from each other. *)
Theorem getBeaufortDescription_monotone
    (slow fast : string) (speed1 speed2 : Z) :
  JS.parseInt slow = Some speed1 ->
  JS.parseInt fast = Some speed2 ->
  speed1 <= speed2 ->
  (beaufort_rank (getBeaufortDescription slow)
   <= beaufort_rank (getBeaufortDescription fast))%nat
  /\ NoDup beaufort_labels.
Proof.
  intros H1 H2 Hle; split.
  - unfold getBeaufortDescription; rewrite H1, H2.
    repeat match goal with
           | |- context [?a <=? ?b] => destruct (Z.leb_spec a b)
           end; solve [lia | vm_compute; lia].
  - repeat (constructor; [simpl; intuition discriminate|]); constructor.
Qed.

(** 10 mph is a gentle breeze and 40 mph a gale. *)
Lemma getBeaufortDescription_monotone_witness :
  JS.parseInt "10 mph" = Some 10
  /\ JS.parseInt "40 mph" = Some 40
  /\ 10 <= 40
  /\ (beaufort_rank (getBeaufortDescription "10 mph")
      <= beaufort_rank (getBeaufortDescription "40 mph"))%nat.
Proof.
  assert (Hle : 10 <= 40) by lia.
  split; [reflexivity|]; split; [reflexivity|]; split; [exact Hle|].
  apply (getBeaufortDescription_monotone "10 mph" "40 mph" 10 40
           eq_refl eq_refl Hle).
Defined.

(** The result is one of the eleven labels or the argument itself, and
    describing a description changes nothing: no label starts with a
    number. *)
Theorem getBeaufortDescription_idempotent (speedStr : string) :
  (In (getBeaufortDescription speedStr) beaufort_labels
   \/ getBeaufortDescription speedStr = speedStr)
  /\ getBeaufortDescription (getBeaufortDescription speedStr)
     = getBeaufortDescription speedStr.
Proof.
  destruct (JS.parseInt speedStr) as [speed|] eqn:H.
  - pose proof (beaufort_label_cases speedStr speed H) as L.
    split; [now left|].
    simpl in L.
    repeat destruct L as [<-|L]; try reflexivity; destruct L.
  - assert (E : getBeaufortDescription speedStr = speedStr)
      by (unfold getBeaufortDescription; now rewrite H).
    split; [now right | now rewrite !E].
Qed.

Lemma trimStart_ascii (a : ascii) (s : string) :
  JS.is_ascii_char a = true -> JS.is_space1 a = false ->
  JS.trimStart (String a s) = String a s.
Proof.
  unfold JS.is_ascii_char; intros Ha H1; apply N.ltb_lt in Ha.
  simpl; rewrite H1.
  assert (X : forall k, (128 <= k)%N -> (JS.byte a =? k)%N = false)
    by (intros k Hk; apply N.eqb_neq; lia).
  destruct s as [|b s]; [reflexivity|].
  unfold JS.is_space2; rewrite X by lia; simpl.
  destruct s as [|c s]; [reflexivity|].
  unfold JS.is_space3; now rewrite !X by lia.
Qed.

Lemma digits_value_nonneg (ds : list Z) :
  Forall (fun d => 0 <= d <= 9) ds -> 0 <= JS.digits_value ds.
Proof.
  intros H.
  assert (G : forall acc, 0 <= acc ->
                0 <= fold_left (fun acc d => 10 * acc + d) ds acc).
  { induction H as [|d ds Hd _ IH]; intros acc Hacc; cbn [fold_left];
      [exact Hacc|].
    apply IH; lia. }
  apply G; lia.
Qed.

Lemma parseInt_signed (a : ascii) (ds : list Z) (rest : string) :
  a = "-"%char \/ a = "+"%char ->
  ds <> [] ->
  Forall (fun d => 0 <= d <= 9) ds ->
  JS.leading_digits rest = [] ->
  JS.parseInt (String a (digits_text ds ++ rest))
  = Some ((if (a =? "-")%char then -1 else 1) * JS.digits_value ds).
Proof.
  intros Ha Hne Hds Hrest.
  pose proof (leading_digits_text ds rest Hds Hrest) as L.
  destruct Ha as [->| ->]; unfold JS.parseInt;
    rewrite trimStart_ascii by reflexivity;
    cbv beta iota zeta; rewrite L;
    (destruct ds as [|d ds]; [congruence | reflexivity]).
Qed.

(** Signs and leading blanks: a speed written with a minus sign is
    classified Calm, a plus sign changes nothing, and neither does a blank
    in front of the number. *)
Theorem getBeaufortDescription_signs (ds : list Z) (rest : string) :
  ds <> [] ->
  Forall (fun d => 0 <= d <= 9) ds ->
  JS.leading_digits rest = [] ->
  getBeaufortDescription ("-" ++ digits_text ds ++ rest) = "Calm"
  /\ getBeaufortDescription ("+" ++ digits_text ds ++ rest)
     = getBeaufortDescription (digits_text ds ++ rest)
  /\ getBeaufortDescription (" " ++ digits_text ds ++ rest)
     = getBeaufortDescription (digits_text ds ++ rest).
Proof.
  intros Hne Hds Hrest.
  pose proof (digits_value_nonneg ds Hds) as Hpos.
  pose proof (parseInt_leading_digits ds rest Hne Hds Hrest) as P.
  split; [|split].
  - unfold getBeaufortDescription.
    change ("-" ++ digits_text ds ++ rest)
      with (String "-" (digits_text ds ++ rest)).
    rewrite (parseInt_signed "-" ds rest (or_introl eq_refl) Hne Hds Hrest).
    change (if ("-" =? "-")%char then -1 else 1) with (-1).
    destruct (Z.leb_spec (-1 * JS.digits_value ds) 1); [reflexivity | lia].
  - unfold getBeaufortDescription.
    change ("+" ++ digits_text ds ++ rest)
      with (String "+" (digits_text ds ++ rest)).
    rewrite (parseInt_signed "+" ds rest (or_intror eq_refl) Hne Hds Hrest), P.
    change (if ("+" =? "-")%char then -1 else 1) with 1.
    now replace (1 * JS.digits_value ds) with (JS.digits_value ds) by lia.
  - unfold getBeaufortDescription.
    assert (E : JS.parseInt (" " ++ digits_text ds ++ rest)
                = JS.parseInt (digits_text ds ++ rest)) by reflexivity.
    now rewrite E, P.
Qed.

(** The speeds -12 mph, +12 mph and 12 mph with a blank in front. *)
Lemma getBeaufortDescription_signs_witness :
  ([1; 2] <> [] /\ Forall (fun d => 0 <= d <= 9) [1; 2]
   /\ JS.leading_digits " mph" = [])
  /\ getBeaufortDescription "-12 mph" = "Calm"
  /\ getBeaufortDescription "+12 mph" = getBeaufortDescription "12 mph"
  /\ getBeaufortDescription " 12 mph" = getBeaufortDescription "12 mph".
Proof.
  assert (Hne : [1; 2] <> []) by discriminate.
  assert (Hds : Forall (fun d => 0 <= d <= 9) [1; 2])
    by (repeat constructor; lia).
  split; [repeat split; assumption|].
  exact (getBeaufortDescription_signs [1; 2] " mph" Hne Hds eq_refl).
Defined.

(** ** Icons *)

(** The eight branches of [getWeatherIcon], each with the outcome of the
    tests that lead to it. *)
Lemma getWeatherIcon_branches {host : Host} (condition : string) :
  let l := toLowerCase condition in
  let inc := JS.includes l in
  let a := inc "sun" || inc "clear" in
  let b := inc "cloud" && inc "partly" in
  let c := inc "cloud" in
  let d := inc "rain" || inc "drizzle" in
  let e := inc "thunder" || inc "storm" in
  let f := inc "snow" in
  let g := inc "mist" || inc "fog" in
  (a = true /\ getWeatherIcon condition = "☀️")
  \/ (a = false /\ b = true /\ getWeatherIcon condition = "⛅️")
  \/ (a = false /\ b = false /\ c = true
      /\ getWeatherIcon condition = "☁️")
  \/ (a = false /\ c = false /\ d = true
      /\ getWeatherIcon condition = "🌧️")
  \/ (a = false /\ c = false /\ d = false /\ e = true
      /\ getWeatherIcon condition = "⛈️")
  \/ (a = false /\ c = false /\ d = false /\ e = false /\ f = true
      /\ getWeatherIcon condition = "❄️")
  \/ (a = false /\ c = false /\ d = false /\ e = false /\ f = false
      /\ g = true /\ getWeatherIcon condition = "🌫️")
  \/ (a = false /\ c = false /\ d = false /\ e = false /\ f = false
      /\ g = false /\ getWeatherIcon condition = "🌡️").
Proof.
  intros l inc a b c d e f g.
  unfold getWeatherIcon; fold l; fold inc; fold a b c d e f g.
  destruct a; [now left | right].
  destruct b eqn:Hb; [now left | right].
  destruct c; [now left | right].
  destruct d; [now left | right].
  destruct e; [now left | right].
  destruct f; [now left | right].
  destruct g; [now left | now right].
Qed.

(** The glyph tells which words the lower-cased condition holds: each of
    the eight glyphs is returned exactly when its own test succeeds and
    every test before it fails, and the thermometer exactly when none of
    the twelve words occurs.  Nothing else is ever returned, and the eight
    glyphs are different from each other. *)
Theorem getWeatherIcon_inversion {host : Host} (condition : string) :
  let l := toLowerCase condition in
  let has := fun w => JS.Substring w l in
  let icon := getWeatherIcon condition in
  In icon ["☀️"; "⛅️"; "☁️"; "🌧️"; "⛈️"; "❄️"; "🌫️"; "🌡️"]
  /\ NoDup ["☀️"; "⛅️"; "☁️"; "🌧️"; "⛈️"; "❄️"; "🌫️"; "🌡️"]
  /\ (icon = "☀️" <-> has "sun" \/ has "clear")
  /\ (icon = "⛅️" <->
      ~ (has "sun" \/ has "clear") /\ has "cloud" /\ has "partly")
  /\ (icon = "☁️" <->
      ~ (has "sun" \/ has "clear") /\ has "cloud" /\ ~ has "partly")
  /\ (icon = "🌧️" <->
      ~ (has "sun" \/ has "clear" \/ has "cloud")
      /\ (has "rain" \/ has "drizzle"))
  /\ (icon = "⛈️" <->
      ~ (has "sun" \/ has "clear" \/ has "cloud" \/ has "rain"
         \/ has "drizzle")
      /\ (has "thunder" \/ has "storm"))
  /\ (icon = "❄️" <->
      ~ (has "sun" \/ has "clear" \/ has "cloud" \/ has "rain"
         \/ has "drizzle" \/ has "thunder" \/ has "storm")
      /\ has "snow")
  /\ (icon = "🌫️" <->
      ~ (has "sun" \/ has "clear" \/ has "cloud" \/ has "rain"
         \/ has "drizzle" \/ has "thunder" \/ has "storm" \/ has "snow")
      /\ (has "mist" \/ has "fog"))
  /\ (icon = "🌡️" <->
      ~ (has "sun" \/ has "clear" \/ has "cloud" \/ has "rain"
         \/ has "drizzle" \/ has "thunder" \/ has "storm" \/ has "snow"
         \/ has "mist" \/ has "fog")).
Proof.
  intros l has icon; subst has icon.
  pose proof (getWeatherIcon_branches condition) as B.
  cbv zeta in B; fold l in B.
  split; [|split].
  - destruct B as [B|[B|[B|[B|[B|[B|[B|B]]]]]]];
      repeat match goal with H : _ /\ _ |- _ => destruct H end;
      match goal with H : getWeatherIcon _ = _ |- _ => rewrite H end;
      simpl; tauto.
  - repeat (constructor; [simpl; intuition discriminate|]); constructor.
  - cbv beta; fold l; rewrite <- !includes_iff.
    destruct B as [B|[B|[B|[B|[B|[B|[B|B]]]]]]];
      repeat match goal with H : _ /\ _ |- _ => destruct H end;
      match goal with H : getWeatherIcon _ = _ |- _ => rewrite H end;
      repeat match goal with
             | H : _ || _ = true |- _ => apply orb_true_iff in H
             | H : _ || _ = false |- _ => apply orb_false_iff in H; destruct H
             | H : _ && _ = true |- _ => apply andb_true_iff in H; destruct H
             | H : _ && _ = false |- _ => apply andb_false_iff in H
             end;
      repeat split; intros; try discriminate; try reflexivity;
      intuition congruence.
Qed.

(** ** Letter case *)

Lemma upper_lower_char (a : ascii) :
  JS.ascii_upper_char (JS.ascii_lower_char a) = JS.ascii_upper_char a.
Proof. destruct a as [[] [] [] [] [] [] [] []]; reflexivity. Qed.

Lemma ascii_upper_lower (s : string) :
  JS.ascii_upper (JS.ascii_lower s) = JS.ascii_upper s.
Proof.
  induction s as [|a s IH]; [reflexivity|].
  unfold JS.ascii_upper, JS.ascii_lower in *; simpl.
  now rewrite upper_lower_char, IH.
Qed.

(** The letter case of a condition or of a direction written in ASCII
    does not matter: two such strings that differ in letter case only have
    the same weather icon and the same wind arrow. *)
Theorem letter_case_is_ignored {host : Host}
    (lower_ok : JS.case_map_conforms toLowerCase JS.ascii_lower_char)
    (upper_ok : JS.case_map_conforms toUpperCase JS.ascii_upper_char)
    (s t : string) :
  JS.is_ascii s = true -> JS.is_ascii t = true ->
  JS.ascii_lower s = JS.ascii_lower t ->
  getWeatherIcon s = getWeatherIcon t
  /\ getWindDirectionIcon s = getWindDirectionIcon t.
Proof.
  intros Hs Ht E; split.
  - unfold getWeatherIcon.
    rewrite (JS.on_ascii _ _ lower_ok s Hs), (JS.on_ascii _ _ lower_ok t Ht).
    fold (JS.ascii_lower s); fold (JS.ascii_lower t); now rewrite E.
  - unfold getWindDirectionIcon.
    rewrite (JS.on_ascii _ _ upper_ok s Hs), (JS.on_ascii _ _ upper_ok t Ht).
    fold (JS.ascii_upper s); fold (JS.ascii_upper t).
    now rewrite <- (ascii_upper_lower s), <- (ascii_upper_lower t), E.
Qed.

(** "Partly Cloudy" and "PARTLY CLOUDY", "nw" and "NW". *)
Lemma letter_case_is_ignored_witness :
  (JS.case_map_conforms (@toLowerCase Reference.host) JS.ascii_lower_char
   /\ JS.case_map_conforms (@toUpperCase Reference.host) JS.ascii_upper_char)
  /\ (JS.is_ascii "Partly Cloudy" = true
      /\ JS.is_ascii "PARTLY CLOUDY" = true
      /\ JS.ascii_lower "Partly Cloudy" = JS.ascii_lower "PARTLY CLOUDY")
  /\ @getWeatherIcon Reference.host "Partly Cloudy"
     = @getWeatherIcon Reference.host "PARTLY CLOUDY"
  /\ @getWindDirectionIcon Reference.host "nw"
     = @getWindDirectionIcon Reference.host "NW".
Proof.
  split; [split; apply map_chars_conforms|].
  split; [repeat split|].
  split.
  - exact (proj1 (letter_case_is_ignored
                    (host := Reference.host)
                    (map_chars_conforms _) (map_chars_conforms _)
                    "Partly Cloudy" "PARTLY CLOUDY"
                    eq_refl eq_refl eq_refl)).
  - exact (proj2 (letter_case_is_ignored
                    (host := Reference.host)
                    (map_chars_conforms _) (map_chars_conforms _)
                    "nw" "NW" eq_refl eq_refl eq_refl)).
Defined.

(** ** Wind direction *)

(** The arrow tells which letters the upper-cased direction holds: each of
    the nine glyphs is returned exactly in its own case, nothing else is
    ever returned, S is not looked at when N is present, and W is not
    looked at when E is present. *)
Theorem getWindDirectionIcon_inversion {host : Host} (direction : string) :
  let d := toUpperCase direction in
  let N := has_letter "N" d in
  let S := has_letter "S" d in
  let E := has_letter "E" d in
  let W := has_letter "W" d in
  let icon := getWindDirectionIcon direction in
  In icon ["↗"; "↖"; "↑"; "↘"; "↙"; "↓"; "→"; "←"; "↔️"]
  /\ (icon = "↗" <-> N /\ E)
  /\ (icon = "↖" <-> N /\ ~ E /\ W)
  /\ (icon = "↑" <-> N /\ ~ E /\ ~ W)
  /\ (icon = "↘" <-> ~ N /\ S /\ E)
  /\ (icon = "↙" <-> ~ N /\ S /\ ~ E /\ W)
  /\ (icon = "↓" <-> ~ N /\ S /\ ~ E /\ ~ W)
  /\ (icon = "→" <-> ~ N /\ ~ S /\ E)
  /\ (icon = "←" <-> ~ N /\ ~ S /\ ~ E /\ W)
  /\ (icon = "↔️" <-> ~ N /\ ~ S /\ ~ E /\ ~ W).
Proof.
  intros d N S E W icon; subst N S E W icon.
  unfold has_letter, getWindDirectionIcon; fold d.
  rewrite <- !includes_char_iff.
  destruct (JS.includes d "N"), (JS.includes d "S"),
    (JS.includes d "E"), (JS.includes d "W");
    (split; [simpl; tauto|]);
    repeat split; intros; try discriminate; try reflexivity;
    intuition congruence.
Qed.

(** * Further properties of the controller *)

Lemma string_app_assoc (a b c : string) : (a ++ b) ++ c = a ++ b ++ c.
Proof. induction a as [|x a IH]; simpl; congruence. Qed.

(** The request of a submission that passes validation.  When the client
    is constructed the handler makes one call: it asks the model
    gemini-2.5-flash, and its prompt is built from the city and the date
    of the form and quotes both.  When line 158 throws it makes none. *)
Theorem request_names_city_and_date {host : Host} (st : state) :
  city st <> "" -> selectedDate st <> "" ->
  exists r,
    model r = "gemini-2.5-flash"
    /\ contents r = prompt (city st) (selectedDate st)
    /\ JS.Substring (city st) (contents r)
    /\ JS.Substring (selectedDate st) (contents r)
    /\ (forall err, calls (getWeather st (Rejects err)) = [GenerateContent r])
    /\ (forall text,
          calls (getWeather st (Resolves text)) = [GenerateContent r])
    /\ (forall err, calls (getWeather st (NoClient err)) = []).
Proof.
  intros Hc Hd; pose proof (validation_passes st Hc Hd) as V.
  exists {| model := model_name;
            contents := prompt (city st) (selectedDate st) |}.
  assert (C : forall o, calls (getWeather st o) = calls (getWeather_call st o)).
  { intros o; unfold getWeather, getWeather_begin, calls.
    rewrite V, !filter_app.
    fold (calls (getWeather_resume (city st) o)).
    rewrite resume_makes_no_call, app_nil_r.
    unfold getWeather_enter; now rewrite V. }
  split; [reflexivity|]; split; [reflexivity|]; split; [|split].
  - simpl; unfold prompt.
    exists "Provide a weather forecast for "; eexists; reflexivity.
  - simpl; unfold prompt.
    exists ("Provide a weather forecast for " ++ city st ++ " on ").
    eexists; rewrite !string_app_assoc; reflexivity.
  - repeat split; intros; now rewrite C.
Qed.

(** The form holds Paris and a date. *)
Lemma request_names_city_and_date_witness :
  (city Reference.ready <> "" /\ selectedDate Reference.ready <> "")
  /\ exists r,
       calls (@getWeather Reference.host Reference.ready
                (Resolves Reference.paris_text)) = [GenerateContent r]
       /\ JS.Substring "Paris" (contents r)
       /\ JS.Substring "2026-11-02" (contents r).
Proof.
  assert (Hc : city Reference.ready <> "") by discriminate.
  assert (Hd : selectedDate Reference.ready <> "") by discriminate.
  split; [split; assumption|].
  destruct (request_names_city_and_date
              (host := Reference.host) Reference.ready Hc Hd)
    as (r & _ & _ & H4 & H5 & _ & H7 & _).
  exists r; repeat split; [apply H7 | assumption | assumption].
Defined.

(** What a submission that passes validation does and leaves depends on
    the city, on the date and on what the call does, and on nothing else:
    the result, the error and the loading flag of before are replaced, and
    the same city and date make the same call again. *)
Theorem submission_replaces_state {host : Host} (st1 st2 : state) (o : outcome) :
  city st1 <> "" -> selectedDate st1 <> "" ->
  city st2 = city st1 -> selectedDate st2 = selectedDate st1 ->
  getWeather st2 o = getWeather st1 o
  /\ settled st2 o = settled st1 o.
Proof.
  intros Hc Hd Ec Ed.
  assert (V1 : validation st1 = None) by now apply validation_passes.
  assert (V2 : validation st2 = None)
    by (apply validation_passes; congruence).
  split.
  - unfold getWeather, getWeather_begin, getWeather_enter, getWeather_call.
    now rewrite V1, V2, Ec, Ed.
  - rewrite (settled_valid st1 o V1), (settled_valid st2 o V2).
    now rewrite (in_flight_valid st1 V1), (in_flight_valid st2 V2), Ec, Ed.
Qed.

(** The same form submitted from the first render and from a state that
    displays an earlier result and error. *)
Lemma submission_replaces_state_witness :
  let st2 := {| city := "Paris"; selectedDate := "2026-11-02";
                weather := Reference.paris; loading := false;
                error := Str "City not found." |} in
  (city Reference.ready <> "" /\ selectedDate Reference.ready <> ""
   /\ city st2 = city Reference.ready
   /\ selectedDate st2 = selectedDate Reference.ready)
  /\ @settled Reference.host st2 (Resolves "{}")
     = @settled Reference.host Reference.ready (Resolves "{}").
Proof.
  assert (Hc : city Reference.ready <> "") by discriminate.
  assert (Hd : selectedDate Reference.ready <> "") by discriminate.
  split; [repeat split; assumption|].
  exact (proj2 (submission_replaces_state
                  (host := Reference.host) Reference.ready
                  {| city := "Paris"; selectedDate := "2026-11-02";
                     weather := Reference.paris; loading := false;
                     error := Str "City not found." |}
                  (Resolves "{}") Hc Hd eq_refl eq_refl)).
Defined.

(** The two ways a submission that passes validation can end. *)
Lemma settled_shape {host : Host} (st : state) (o : outcome) :
  validation st = None ->
  city (settled st o) = city st
  /\ selectedDate (settled st o) = selectedDate st
  /\ loading (settled st o) = false
  /\ ((weather (settled st o) = Null
       /\ (truthy (error (settled st o)) = true
           \/ exists m, error (settled st o) = Str m))
      \/ (exists props,
             weather (settled st o) = Obj props
             /\ truthy (lookup "city" props) = true
             /\ truthy (lookup "error" props) = false
             /\ error (settled st o) = Null)).
Proof.
  intros V; rewrite (settled_valid st o V), (in_flight_valid st V).
  unfold getWeather_resume, try_body, parse_response.
  destruct o as [[m|]|text|[m|]];
    try (repeat split; left; split;
         [reflexivity | right; eexists; reflexivity]).
  destruct (JSON_parse text) as [payload|];
    [|repeat split; left; split; [reflexivity | right; eexists; reflexivity]].
  rewrite bind_ret.
  destruct payload as [| |b|n|s|items|props];
    try (repeat split; left; split;
         [reflexivity | right; eexists; reflexivity]).
  unfold get; rewrite bind_ret.
  destruct (truthy (lookup "error" props)) eqn:He.
  - repeat split; left; split; [reflexivity | left; exact He].
  - rewrite bind_ret.
    destruct (truthy (lookup "city" props)) eqn:Hc.
    + repeat split; right; exists props; repeat split; assumption.
    + repeat split; left; split; [reflexivity | right; eexists; reflexivity].
Qed.

(** After a submission that passes validation, exactly one of the two
    hooks, the weather result and the error, is not null.  So the guard
    of the result block and the guard of the error paragraph never hold
    together, and both fail only when the error stored is the empty
    string.  The city and the date of the form are left as they were.
    (What the page then shows also depends on the rendering, which may
    throw: see the theorems on [App].) *)
Theorem result_or_error_not_both {host : Host} (st : state) (o : outcome) :
  city st <> "" -> selectedDate st <> "" ->
  let st' := settled st o in
  (weather st' = Null <-> error st' <> Null)
  /\ (weather_results st' = None \/ error_paragraph st' = None)
  /\ (weather_results st' = None -> error_paragraph st' = None ->
      error st' = Str "")
  /\ city st' = city st
  /\ selectedDate st' = selectedDate st
  /\ loading st' = false.
Proof.
  intros Hc Hd st'; subst st'.
  destruct (settled_shape st o (validation_passes st Hc Hd))
    as (E1 & E2 & E3 & [[Hw He]|(props & Hw & Hcity & Herr & He)]).
  - unfold weather_results, error_paragraph; rewrite Hw, E3.
    split; [|split; [|split; [|repeat split; assumption]]].
    + split; [intros _ X | reflexivity].
      destruct He as [He|[m He]]; rewrite X in He; discriminate He.
    + now left.
    + intros _; destruct He as [He|[m He]]; rewrite He; [discriminate|].
      simpl; destruct m; [reflexivity | discriminate].
  - unfold weather_results, error_paragraph; rewrite Hw, He, E3.
    split; [|split; [|split; [|repeat split; assumption]]].
    + split; [discriminate | intros X; now elim X].
    + now right.
    + discriminate.
Qed.

(** The call rejects with an [Error] whose message is empty: the error
    stored is the empty string and both guards fail. *)
Lemma result_or_error_not_both_witness :
  (city Reference.ready <> "" /\ selectedDate Reference.ready <> "")
  /\ weather_results
       (@settled Reference.host Reference.ready (Rejects (ErrorObject "")))
     = None
  /\ error_paragraph
       (@settled Reference.host Reference.ready (Rejects (ErrorObject "")))
     = None
  /\ error (@settled Reference.host Reference.ready (Rejects (ErrorObject "")))
     = Str "".
Proof.
  assert (Hc : city Reference.ready <> "") by discriminate.
  assert (Hd : selectedDate Reference.ready <> "") by discriminate.
  split; [split; assumption|].
  split; [reflexivity|]; split; [reflexivity|].
  exact (proj1 (proj2 (proj2 (result_or_error_not_both
                                (host := Reference.host) Reference.ready
                                (Rejects (ErrorObject "")) Hc Hd)))
           eq_refl eq_refl).
Defined.

(** A call that rejects with an [Error] whose message is empty ends with
    nothing on the page below the form: no skeleton, no error paragraph
    and no result. *)
Theorem empty_message_shows_nothing {host : Host} (st : state) :
  city st <> "" -> selectedDate st <> "" ->
  let st' := settled st (Rejects (ErrorObject "")) in
  shows_skeleton st' = false
  /\ error_paragraph st' = None
  /\ weather_results st' = None.
Proof.
  intros Hc Hd st'; subst st'.
  rewrite (settled_valid st _ (validation_passes st Hc Hd)).
  rewrite (in_flight_valid st (validation_passes st Hc Hd)).
  repeat split.
Qed.

(** The form holds Paris and a date. *)
Lemma empty_message_shows_nothing_witness :
  (city Reference.ready <> "" /\ selectedDate Reference.ready <> "")
  /\ error_paragraph
       (@settled Reference.host Reference.ready (Rejects (ErrorObject "")))
     = None.
Proof.
  assert (Hc : city Reference.ready <> "") by discriminate.
  assert (Hd : selectedDate Reference.ready <> "") by discriminate.
  split; [split; assumption|].
  apply (empty_message_shows_nothing
           (host := Reference.host) Reference.ready Hc Hd).
Defined.

(** ** Sessions *)

Lemma step_keeps_shape {host : Host} (st : state) (e : event) :
  loading st = false ->
  (weather st = Null
   \/ exists props,
        weather st = Obj props /\ truthy (lookup "city" props) = true) ->
  loading (step st e) = false
  /\ (weather (step st e) = Null
      \/ exists props,
           weather (step st e) = Obj props
           /\ truthy (lookup "city" props) = true).
Proof.
  intros Hl Hw; destruct e as [v|v|o]; simpl; try (split; assumption).
  destruct (validation st) as [msg|] eqn:V.
  - unfold settled, getWeather, getWeather_begin, getWeather_enter; rewrite V; simpl.
    split; assumption.
  - destruct (settled_shape st o V)
      as (_ & _ & E3 & [[W _]|(props & W & C & _)]).
    + split; [exact E3 | now left].
    + split; [exact E3 | right; now exists props].
Qed.


(** Whatever is typed and submitted, in whatever order and with whatever
    answers, between two events the page is not loading, and a weather
    result that is stored is an object with a city: the result block is
    never rendered from anything else. *)
Theorem session_invariant {host : Host} (today : string) (events : list event) :
  let st := session today events in
  loading st = false
  /\ (weather st = Null
      \/ exists props,
           weather st = Obj props /\ truthy (lookup "city" props) = true)
  /\ (forall w,
        weather_results st = Some w ->
        exists props,
          w = Obj props /\ truthy (lookup "city" props) = true).
Proof.
  intros st; subst st; unfold session.
  assert (G : forall st0,
            loading st0 = false ->
            (weather st0 = Null
             \/ exists props,
                  weather st0 = Obj props
                  /\ truthy (lookup "city" props) = true) ->
            loading (fold_left step events st0) = false
            /\ (weather (fold_left step events st0) = Null
                \/ exists props,
                     weather (fold_left step events st0) = Obj props
                     /\ truthy (lookup "city" props) = true)).
  { induction events as [|e events IH]; intros st0 Hl Hw; [now split|].
    simpl; destruct (step_keeps_shape st0 e Hl Hw) as [Hl' Hw'].
    now apply IH. }
  destruct (G (initial today) eq_refl (or_introl eq_refl)) as [Hl Hw].
  split; [exact Hl | split; [exact Hw|]].
  intros w; unfold weather_results; rewrite Hl; simpl.
  destruct Hw as [Hw|(props & Hw & C)]; rewrite Hw; simpl; [discriminate|].
  intros X; injection X as <-; now exists props.
Qed.

(** * Properties of what is rendered *)

Lemma elements_child_of (x : option string) : elements (child_of x) = [].
Proof. now destruct x. Qed.

Lemma elements_unless_None (x : option string) :
  elements (unless_None x) = [].
Proof.
  destruct x as [s|]; [|reflexivity].
  unfold unless_None; now destruct (s =? "None")%string.
Qed.

Lemma by_class_app (c : string) (l1 l2 : list node) :
  filter (has_class c) (l1 ++ l2)
  = (filter (has_class c) l1 ++ filter (has_class c) l2)%list.
Proof. apply filter_app. Qed.

(** While a call is pending [App] cannot throw, whatever the weather hook
    reads as, and the boundary passes its tree on: the page shows the
    skeleton, the three controls are disabled, and there is no error
    paragraph and no result block. *)
Theorem pending_page {host : Host} {locale : Locale}
    (today : string) (st : state) (w : option Weather.t) :
  city st <> "" -> selectedDate st <> "" ->
  exists tree,
    App today (in_flight st) w = Some tree
    /\ render_page boundary_initial (App today (in_flight st) w)
       = (boundary_initial, tree)
    /\ by_class "skeleton-loader" tree = [WeatherSkeleton]
    /\ map (attribute "disabled") (controls tree)
       = [Some (ABool true); Some (ABool true); Some (ABool true)]
    /\ by_class "error" tree = []
    /\ by_class "weather-results" tree = [].
Proof.
  intros Hc Hd; pose proof (validation_passes st Hc Hd) as V.
  rewrite (in_flight_valid st V).
  eexists; split; [reflexivity|].
  repeat split; reflexivity.
Qed.

Lemma weather_block_throws {host : Host} {locale : Locale}
    (date : string) (wd : Weather.t) :
  weather_block date wd = None
  <-> Weather.conditions wd = None \/ Weather.windDirection wd = None.
Proof.
  unfold weather_block, icon_of, arrow_of.
  destruct (Weather.conditions wd), (Weather.windDirection wd);
    split; intros X; try discriminate X; try tauto;
    destruct X as [X|X]; discriminate X.
Qed.

Lemma App_throws {host : Host} {locale : Locale}
    (today : string) (st : state) (wd : Weather.t) :
  loading st = false ->
  (App today st (Some wd) = None
   <-> Weather.conditions wd = None \/ Weather.windDirection wd = None).
Proof.
  intros Hl; unfold App, results_child; rewrite Hl.
  rewrite <- (weather_block_throws (selectedDate st) wd).
  destruct (weather_block (selectedDate st) wd);
    split; intros X; try discriminate X; reflexivity.
Qed.

(** The result block throws exactly when the record has no conditions or
    no wind direction: [getWeatherIcon] and [getWindDirectionIcon] call a
    method of their argument.  Every other property may be missing. *)
Theorem render_throws_exactly {host : Host} {locale : Locale}
    (today : string) (st : state) (wd : Weather.t) :
  loading st = false ->
  (App today st (Some wd) = None
   <-> Weather.conditions wd = None \/ Weather.windDirection wd = None)
  /\ (weather_block (selectedDate st) wd = None
      <-> Weather.conditions wd = None \/ Weather.windDirection wd = None)
  /\ (exists tree, App today st None = Some tree).
Proof.
  intros Hl; split; [now apply App_throws|].
  split; [apply weather_block_throws|].
  unfold App, results_child; rewrite Hl; eexists; reflexivity.
Qed.

(** A record with a city only, in a state that is not loading. *)
Lemma render_throws_exactly_witness :
  loading Reference.ready = false
  /\ @App Reference.host Sample.locale "2026-11-02" Reference.ready
       (Some Sample.city_only) = None.
Proof.
  split; [reflexivity|].
  apply (proj1 (render_throws_exactly
                  (host := Reference.host) (locale := Sample.locale)
                  "2026-11-02" Reference.ready Sample.city_only eq_refl)).
  now left.
Defined.

Lemma decode_fields (props : list (string * value)) (wd : Weather.t) :
  decode (Obj props) = Some wd ->
  optional_string "city" props = Some (Weather.city wd)
  /\ optional_string "conditions" props = Some (Weather.conditions wd)
  /\ optional_string "windSpeed" props = Some (Weather.windSpeed wd)
  /\ optional_string "windDirection" props = Some (Weather.windDirection wd)
  /\ optional_array decode_hourly "hourlyForecast" props
     = Some (Weather.hourlyForecast wd)
  /\ optional_array decode_daily "dailyForecast" props
     = Some (Weather.dailyForecast wd).
Proof.
  unfold decode.
  destruct (optional_string "city" props); [|discriminate].
  destruct (optional_string "temperature" props); [|discriminate].
  destruct (optional_string "temperatureUnit" props); [|discriminate].
  destruct (optional_string "conditions" props); [|discriminate].
  destruct (optional_string "windSpeed" props); [|discriminate].
  destruct (optional_string "windDirection" props); [|discriminate].
  destruct (optional_string "precipitationProbability" props); [|discriminate].
  destruct (optional_string "precipitationType" props); [|discriminate].
  destruct (optional_array decode_hourly "hourlyForecast" props); [|discriminate].
  destruct (optional_array decode_daily "dailyForecast" props); [|discriminate].
  intros X; injection X as <-; repeat split.
Qed.

Lemma payload_with_city_is_shown_parts {host : Host}
    (st : state) (text : string) (props : list (string * value)) :
  city st <> "" -> selectedDate st <> "" ->
  JSON_parse text = Some (Obj props) ->
  truthy (lookup "error" props) = false ->
  truthy (lookup "city" props) = true ->
  weather (settled st (Resolves text)) = Obj props
  /\ error (settled st (Resolves text)) = Null
  /\ loading (settled st (Resolves text)) = false.
Proof.
  intros Hc Hd Hp He Hy.
  rewrite (settled_valid st _ (validation_passes st Hc Hd)).
  rewrite (in_flight_valid st (validation_passes st Hc Hd)).
  rewrite (resume_success _ _ _ _ _ Hp eq_refl He eq_refl Hy).
  repeat split.
Qed.

(** The controller asks for a city and for nothing else.  A payload of the
    schema's types with a city and without conditions, or without a wind
    direction, is stored as a success; rendering it throws, the boundary
    catches that, and the page is the fallback. *)
Theorem payload_without_conditions_breaks_the_page
    {host : Host} {locale : Locale}
    (today : string) (st : state) (text : string)
    (props : list (string * value)) (wd : Weather.t) :
  city st <> "" -> selectedDate st <> "" ->
  JSON_parse text = Some (Obj props) ->
  truthy (lookup "error" props) = false ->
  truthy (lookup "city" props) = true ->
  decode (Obj props) = Some wd ->
  lookup "conditions" props = Undefined
  \/ lookup "windDirection" props = Undefined ->
  let st' := settled st (Resolves text) in
  weather st' = Obj props
  /\ error st' = Null
  /\ reads_as (weather st') (Some wd)
  /\ App today st' (Some wd) = None
  /\ render_page boundary_initial (App today st' (Some wd))
     = (getDerivedStateFromError, fallback).
Proof.
  intros Hc Hd Hp He Hcity Hdec Hmiss st'; subst st'.
  destruct (payload_with_city_is_shown_parts st text props Hc Hd Hp He Hcity)
    as (Hw & Herr & Hl).
  assert (T : App today (settled st (Resolves text)) (Some wd) = None).
  { apply (App_throws today _ wd Hl).
    destruct (decode_fields props wd Hdec) as (_ & C & _ & D & _).
    unfold optional_string in C, D.
    destruct Hmiss as [M|M]; rewrite M in *; [left|right]; congruence. }
  rewrite Hw, Herr, T.
  repeat split; right; exists wd; now split.
Qed.

(** The reference host is answered with [{"city":"Paris"}]. *)
Lemma payload_without_conditions_breaks_the_page_witness :
  (city Reference.ready <> "" /\ selectedDate Reference.ready <> "")
  /\ @JSON_parse Reference.host Sample.city_only_text
     = Some (Obj [("city", Str "Paris")])
  /\ decode (Obj [("city", Str "Paris")]) = Some Sample.city_only
  /\ weather_results
       (@settled Reference.host Reference.ready
          (Resolves Sample.city_only_text))
     = Some (Obj [("city", Str "Paris")])
  /\ render_page boundary_initial
       (@App Reference.host Sample.locale "2026-11-02"
          (@settled Reference.host Reference.ready
             (Resolves Sample.city_only_text))
          (Some Sample.city_only))
     = (getDerivedStateFromError, fallback).
Proof.
  assert (Hc : city Reference.ready <> "") by discriminate.
  assert (Hd : selectedDate Reference.ready <> "") by discriminate.
  pose proof (payload_without_conditions_breaks_the_page
                (host := Reference.host) (locale := Sample.locale)
                "2026-11-02" Reference.ready Sample.city_only_text
                [("city", Str "Paris")] Sample.city_only
                Hc Hd eq_refl eq_refl eq_refl eq_refl (or_introl eq_refl))
    as T.
  split; [split; assumption|].
  split; [reflexivity|]; split; [reflexivity|]; split; [reflexivity|].
  apply T.
Defined.

(** ** The error boundary *)

Lemma render_pages_after_error (page : node) (children : list (option node)) :
  render_pages getDerivedStateFromError page children
  = (getDerivedStateFromError,
     match children with [] => page | _ => fallback end).
Proof.
  revert page; induction children as [|child rest IH]; intros page;
    [reflexivity|].
  change (render_pages getDerivedStateFromError page (child :: rest))
    with (render_pages getDerivedStateFromError fallback rest).
  rewrite IH; destruct rest; reflexivity.
Qed.

(** The boundary never recovers.  From its first state: when one of the
    renders of its child throws, the page is the fallback after that
    render and after every later one, whatever the child would render; as
    long as none throws, the page is what the child rendered last. *)
Theorem boundary_never_recovers
    (page : node) (before after : list (option node)) (trees : list node) :
  render_pages boundary_initial page (map Some trees ++ None :: after)%list
  = (getDerivedStateFromError, fallback)
  /\ render_pages boundary_initial page (map Some trees)
     = (boundary_initial, last trees page)
  /\ (In None before ->
      render_pages boundary_initial page before
      = (getDerivedStateFromError, fallback)).
Proof.
  assert (D : forall (l : list node) (a d d' : node),
            last (a :: l) d = last (a :: l) d').
  { induction l as [|b l IH]; intros a d d'; [reflexivity|].
    change (last (b :: l) d = last (b :: l) d'); apply IH. }
  assert (L : forall (l : list node) (t p : node), last l t = last (t :: l) p).
  { intros [|a l] t p; [reflexivity|].
    change (last (a :: l) t = last (a :: l) p); apply D. }
  assert (G : forall l p rest,
            render_pages boundary_initial p (map Some l ++ rest)
            = render_pages boundary_initial (last l p) rest).
  { induction l as [|t l IH]; intros p rest; [reflexivity|].
    change (render_pages boundary_initial t (map Some l ++ rest)
            = render_pages boundary_initial (last (t :: l) p) rest).
    now rewrite IH, <- L. }
  split; [|split].
  - rewrite G.
    change (render_pages boundary_initial (last trees page) (None :: after))
      with (render_pages getDerivedStateFromError fallback after).
    rewrite render_pages_after_error; destruct after; reflexivity.
  - rewrite <- (app_nil_r (map Some trees)), G; reflexivity.
  - intros H; apply in_split in H as (l1 & l2 & ->).
    assert (S : exists ts rest,
              (l1 ++ None :: l2 = map Some ts ++ None :: rest)%list).
    { clear; induction l1 as [|[t|] l1 IH].
      - now exists [], l2.
      - destruct IH as (ts & rest & E); exists (t :: ts), rest.
        simpl; now rewrite E.
      - now exists [], (l1 ++ None :: l2)%list. }
    destruct S as (ts & rest & ->).
    rewrite G.
    change (render_pages boundary_initial (last ts page) (None :: rest))
      with (render_pages getDerivedStateFromError fallback rest).
    rewrite render_pages_after_error; destruct rest; reflexivity.
Qed.

(** ** The forecast lists *)

Lemma filter_elements_mapi {A : Type} (c : string)
    (card : nat -> A -> node) (found : A -> list node) :
  (forall index x, filter (has_class c) (elements (card index x)) = found x) ->
  forall index l,
    filter (has_class c) (flat_map elements (mapi_from card index l))
    = flat_map found l.
Proof.
  intros H index l; revert index; induction l as [|x l IH]; intros index;
    [reflexivity|].
  cbn [mapi_from flat_map]; now rewrite filter_app, H, IH.
Qed.

Lemma hourly_card_classes {host : Host} (index : nat) (hour : Hourly.t) :
  filter (has_class "hourly-time") (elements (hourly_card index hour))
  = [Element "p" [("className", AStr "hourly-time")]
       [Child (Str (Hourly.time hour))]]
  /\ filter (has_class "hourly-icon") (elements (hourly_card index hour))
     = [Element "div" [("className", AStr "hourly-icon")]
          [Child (Str (getWeatherIcon (Hourly.conditions hour)))]]
  /\ filter (has_class "daily-day") (elements (hourly_card index hour)) = []
  /\ filter (has_class "daily-icon") (elements (hourly_card index hour)) = []
  /\ filter (has_class "hourly-forecast") (elements (hourly_card index hour)) = []
  /\ filter (has_class "daily-forecast") (elements (hourly_card index hour)) = [].
Proof.
  unfold hourly_card; cbn [elements flat_map app].
  rewrite elements_unless_None; repeat split; reflexivity.
Qed.

Lemma daily_card_classes {host : Host} (index : nat) (d : Daily.t) :
  filter (has_class "daily-day") (elements (daily_card index d))
  = [Element "p" [("className", AStr "daily-day")]
       [Child (Str (Daily.day d))]]
  /\ filter (has_class "daily-icon") (elements (daily_card index d))
     = [Element "div" [("className", AStr "daily-icon")]
          [Child (Str (getWeatherIcon (Daily.conditions d)))]]
  /\ filter (has_class "hourly-time") (elements (daily_card index d)) = []
  /\ filter (has_class "hourly-icon") (elements (daily_card index d)) = []
  /\ filter (has_class "hourly-forecast") (elements (daily_card index d)) = []
  /\ filter (has_class "daily-forecast") (elements (daily_card index d)) = [].
Proof.
  unfold daily_card; cbn [elements flat_map app].
  rewrite elements_unless_None; repeat split; reflexivity.
Qed.

Lemma flat_map_single {A B : Type} (f : A -> B) (l : list A) :
  flat_map (fun x => [f x]) l = map f l.
Proof. induction l as [|x l IH]; simpl; congruence. Qed.

Lemma flat_map_none {A B : Type} (l : list A) :
  flat_map (fun _ : A => @nil B) l = [].
Proof. induction l as [|x l IH]; simpl; congruence. Qed.

Lemma section_classes (c sc lc title : string) (cards : list node) :
  filter (has_class c)
    (elements
       (Element "div" [("className", AStr sc)]
          [ Element "h3" [] [text title];
            Element "div" [("className", AStr lc)] [Items cards] ]))
  = ((if (sc =? c)%string
      then [Element "div" [("className", AStr sc)]
              [ Element "h3" [] [text title];
                Element "div" [("className", AStr lc)] [Items cards] ]]
      else [])
     ++ (if (lc =? c)%string
         then [Element "div" [("className", AStr lc)] [Items cards]]
         else [])
     ++ filter (has_class c) (flat_map elements cards))%list.
Proof.
  unfold text; cbn [elements flat_map app]; rewrite !app_nil_r.
  cbn [filter]; unfold has_class; cbn [attribute attr_of].
  rewrite !String.eqb_refl.
  destruct (sc =? c)%string, (lc =? c)%string; reflexivity.
Qed.

Lemma hourly_section_classes {host : Host} (l : option (list Hourly.t)) :
  filter (has_class "hourly-time") (elements (hourly_section l))
  = map (fun h => Element "p" [("className", AStr "hourly-time")]
                    [Child (Str (Hourly.time h))]) (entries l)
  /\ filter (has_class "hourly-icon") (elements (hourly_section l))
     = map (fun h => Element "div" [("className", AStr "hourly-icon")]
                       [Child (Str (getWeatherIcon (Hourly.conditions h)))])
         (entries l)
  /\ filter (has_class "daily-day") (elements (hourly_section l)) = []
  /\ filter (has_class "daily-icon") (elements (hourly_section l)) = []
  /\ (filter (has_class "hourly-forecast") (elements (hourly_section l)) = []
      <-> entries l = [])
  /\ filter (has_class "daily-forecast") (elements (hourly_section l)) = [].
Proof.
  destruct l as [[|h hs]|];
    [repeat split; reflexivity | | repeat split; reflexivity].
  unfold hourly_section, entries.
  rewrite !section_classes; unfold mapi.
  rewrite (filter_elements_mapi "hourly-time" hourly_card
             (fun h => [Element "p" [("className", AStr "hourly-time")]
                          [Child (Str (Hourly.time h))]]))
    by (intros; apply hourly_card_classes).
  rewrite (filter_elements_mapi "hourly-icon" hourly_card
             (fun h => [Element "div" [("className", AStr "hourly-icon")]
                          [Child (Str (getWeatherIcon (Hourly.conditions h)))]]))
    by (intros; apply hourly_card_classes).
  rewrite (filter_elements_mapi "daily-day" hourly_card (fun _ => []))
    by (intros; apply hourly_card_classes).
  rewrite (filter_elements_mapi "daily-icon" hourly_card (fun _ => []))
    by (intros; apply hourly_card_classes).
  rewrite (filter_elements_mapi "daily-forecast" hourly_card (fun _ => []))
    by (intros; apply hourly_card_classes).
  rewrite !flat_map_single, !flat_map_none.
  repeat split; try reflexivity; intros X; discriminate X.
Qed.

Lemma daily_section_classes {host : Host} (l : option (list Daily.t)) :
  filter (has_class "daily-day") (elements (daily_section l))
  = map (fun d => Element "p" [("className", AStr "daily-day")]
                    [Child (Str (Daily.day d))]) (entries l)
  /\ filter (has_class "daily-icon") (elements (daily_section l))
     = map (fun d => Element "div" [("className", AStr "daily-icon")]
                       [Child (Str (getWeatherIcon (Daily.conditions d)))])
         (entries l)
  /\ filter (has_class "hourly-time") (elements (daily_section l)) = []
  /\ filter (has_class "hourly-icon") (elements (daily_section l)) = []
  /\ (filter (has_class "daily-forecast") (elements (daily_section l)) = []
      <-> entries l = [])
  /\ filter (has_class "hourly-forecast") (elements (daily_section l)) = [].
Proof.
  destruct l as [[|d ds]|];
    [repeat split; reflexivity | | repeat split; reflexivity].
  unfold daily_section, entries.
  rewrite !section_classes; unfold mapi.
  rewrite (filter_elements_mapi "daily-day" daily_card
             (fun d => [Element "p" [("className", AStr "daily-day")]
                          [Child (Str (Daily.day d))]]))
    by (intros; apply daily_card_classes).
  rewrite (filter_elements_mapi "daily-icon" daily_card
             (fun d => [Element "div" [("className", AStr "daily-icon")]
                          [Child (Str (getWeatherIcon (Daily.conditions d)))]]))
    by (intros; apply daily_card_classes).
  rewrite (filter_elements_mapi "hourly-time" daily_card (fun _ => []))
    by (intros; apply daily_card_classes).
  rewrite (filter_elements_mapi "hourly-icon" daily_card (fun _ => []))
    by (intros; apply daily_card_classes).
  rewrite (filter_elements_mapi "hourly-forecast" daily_card (fun _ => []))
    by (intros; apply daily_card_classes).
  rewrite !flat_map_single, !flat_map_none.
  repeat split; try reflexivity; intros X; discriminate X.
Qed.

Ltac into_sections :=
  unfold by_class, text; cbn [elements flat_map app];
  rewrite !elements_child_of, !elements_unless_None;
  cbn [app]; rewrite !app_nil_r;
  cbn [filter has_class attribute attr_of String.eqb Ascii.eqb Bool.eqb];
  apply filter_app.

Lemma weather_block_classes {host : Host} {locale : Locale}
    (date : string) (w : Weather.t) (tree : node) (c : string) :
  weather_block date w = Some tree ->
  In c ["hourly-time"; "hourly-icon"; "hourly-forecast";
        "daily-day"; "daily-icon"; "daily-forecast"] ->
  by_class c tree
  = (filter (has_class c)
       (elements (hourly_section (Weather.hourlyForecast w)))
     ++ filter (has_class c)
          (elements (daily_section (Weather.dailyForecast w))))%list.
Proof.
  intros H Hc; unfold weather_block in H.
  destruct (icon_of (Weather.conditions w)) as [icon|]; [|discriminate].
  destruct (arrow_of (Weather.windDirection w)) as [arrow|]; [|discriminate].
  injection H as <-.
  simpl in Hc.
  repeat destruct Hc as [<-|Hc]; try (now destruct Hc); into_sections.
Qed.

(** The forecast lists are rendered entry by entry, in the order of the
    payload: the hourly times and icons on the page are those of the
    hourly entries, the days and icons of the daily list those of the
    daily entries, each icon chosen from the conditions of its own entry.
    A list that is empty or missing has no section on the page. *)
Theorem forecast_lists_follow_entries {host : Host} {locale : Locale}
    (date : string) (w : Weather.t) (tree : node) :
  weather_block date w = Some tree ->
  let hours := entries (Weather.hourlyForecast w) in
  let days := entries (Weather.dailyForecast w) in
  by_class "hourly-time" tree
  = map (fun h => Element "p" [("className", AStr "hourly-time")]
                    [Child (Str (Hourly.time h))]) hours
  /\ by_class "hourly-icon" tree
     = map (fun h => Element "div" [("className", AStr "hourly-icon")]
                       [Child (Str (getWeatherIcon (Hourly.conditions h)))])
         hours
  /\ by_class "daily-day" tree
     = map (fun d => Element "p" [("className", AStr "daily-day")]
                       [Child (Str (Daily.day d))]) days
  /\ by_class "daily-icon" tree
     = map (fun d => Element "div" [("className", AStr "daily-icon")]
                       [Child (Str (getWeatherIcon (Daily.conditions d)))])
         days
  /\ (by_class "hourly-forecast" tree = [] <-> hours = [])
  /\ (by_class "daily-forecast" tree = [] <-> days = []).
Proof.
  intros H hours days; subst hours days.
  destruct (hourly_section_classes (Weather.hourlyForecast w))
    as (H1 & H2 & H3 & H4 & H5 & H6).
  destruct (daily_section_classes (Weather.dailyForecast w))
    as (D1 & D2 & D3 & D4 & D5 & D6).
  rewrite !(weather_block_classes date w tree _ H) by (simpl; tauto).
  rewrite H1, H2, H3, H4, H6, D1, D2, D3, D4, D6, !app_nil_r.
  cbn [app].
  do 4 (split; [reflexivity|]).
  split; [exact H5 | exact D5].
Qed.

(** The sample record: two hours and one day. *)
Lemma forecast_lists_follow_entries_witness :
  exists tree,
    @weather_block Reference.host Sample.locale "2026-11-02" Sample.forecast
    = Some tree
    /\ map children_of (by_class "hourly-time" tree)
       = [[Child (Str "09:00")]; [Child (Str "10:00")]]
    /\ map children_of (by_class "hourly-icon" tree)
       = [[Child (Str "☀️")]; [Child (Str "☁️")]]
    /\ map children_of (by_class "daily-icon" tree)
       = [[Child (Str "🌧️")]].
Proof.
  destruct (@weather_block Reference.host Sample.locale "2026-11-02"
              Sample.forecast) as [tree|] eqn:E; [|discriminate E].
  exists tree; split; [reflexivity|].
  destruct (forecast_lists_follow_entries
              (host := Reference.host) (locale := Sample.locale)
              "2026-11-02" Sample.forecast tree E)
    as (T1 & T2 & _ & T4 & _).
  rewrite T1, T2, T4; repeat split.
Defined.



(** The form holds Paris and a date, and an earlier result is stored. *)
Lemma pending_page_witness :
  let st := {| city := "Paris"; selectedDate := "2026-11-02";
               weather := Reference.paris; loading := false;
               error := Str "City not found." |} in
  (city st <> "" /\ selectedDate st <> "")
  /\ exists tree,
       @App Reference.host Sample.locale "2026-11-02" (in_flight st)
         (Some Sample.forecast) = Some tree
       /\ by_class "skeleton-loader" tree = [WeatherSkeleton]
       /\ by_class "weather-results" tree = [].
Proof.
  assert (Hc : "Paris" <> "") by discriminate.
  assert (Hd : "2026-11-02" <> "") by discriminate.
  split; [split; assumption|].
  destruct (pending_page
              (host := Reference.host) (locale := Sample.locale)
              "2026-11-02"
              {| city := "Paris"; selectedDate := "2026-11-02";
                 weather := Reference.paris; loading := false;
                 error := Str "City not found." |}
              (Some Sample.forecast) Hc Hd)
    as (tree & T1 & _ & T2 & _ & _ & T5).
  exists tree; repeat split; assumption.
Defined.
